(** * Habit tracker: a shallow embedding of [habit_tracker.py] and its properties

    The development follows the source file top to bottom: the Python
    runtime the program relies on (exceptions, [str], [datetime.date],
    JSON values, a console and a data directory), then the functions of
    [habit_tracker.py] under their own names, then the lemmas.

    Conventions of the embedding:
    - a Python call that may raise returns a [result]; a function that
      mutates [self] or a list argument returns the new state next to its
      return value;
    - [str] is modelled by [string], one character per code point below 256;
    - a [set] of strings is a [gset string], a JSON object a
      [gmap string value];
    - a [datetime.date] is its proleptic Gregorian ordinal. *)

From Stdlib Require Import ZArith Lia Ascii String.
From Stdlib.Strings Require Import Byte.
From stdpp Require Import gmap strings list sorting pretty.

#[local] Set Warnings "-register-all,-clear-no-such-hyp".
#[local] Open Scope Z_scope.

(** ** Exceptions and results *)

Inductive exn : Set :=
  | OverflowError
  | TypeError
  | UnicodeDecodeError
  | JSONDecodeError
  | OSError
  | EOFError.

Inductive result (A : Type) : Type :=
  | Ok (a : A)
  | Raise (e : exn).
Arguments Ok {A} a.
Arguments Raise {A} e.

#[global] Instance result_ret : MRet result := fun _ a => Ok a.
#[global] Instance result_bind : MBind result := fun _ _ f m =>
  match m with
  | Ok a => f a
  | Raise e => Raise e
  end.

(** [[f(x) for x in xs]]: the first call that raises aborts the
    comprehension. *)
Fixpoint comprehension {A B} (f : A → result B) (xs : list A) : result (list B) :=
  match xs with
  | [] => Ok []
  | x :: xs' => y ← f x; ys ← comprehension f xs'; Ok (y :: ys)
  end.

(** ** Strings *)

Module Str.

(** [s1 <= s2] on [str]: lexicographic, by code point. *)
Definition le (s1 s2 : string) : Prop := String.leb s1 s2 = true.

#[global] Instance le_dec : RelDecision le.
Proof. intros s1 s2. unfold le. apply _. Defined.

(** [sorted(s)] for a set of strings. *)
Definition sorted (s : gset string) : list string :=
  merge_sort le (elements s).

Definition char_between (lo hi c : ascii) : bool :=
  (N_of_ascii lo <=? N_of_ascii c)%N && (N_of_ascii c <=? N_of_ascii hi)%N.

(** [str.lower] on the characters the model carries: the letters A to Z
    and the capital letters of Latin-1 move 32 code points up. *)
Definition lower_char (c : ascii) : ascii :=
  if char_between "A" "Z" c
     || char_between "192" "214" c || char_between "216" "222" c
  then ascii_of_N (N_of_ascii c + 32)
  else c.

Fixpoint lower (s : string) : string :=
  match s with
  | EmptyString => EmptyString
  | String c s' => String (lower_char c) (lower s')
  end.

(** [str.isspace] on one character. *)
Definition isspace (c : ascii) : bool :=
  char_between "009" "013" c || char_between "028" "032" c
  || (N_of_ascii c =? 133)%N || (N_of_ascii c =? 160)%N.

Fixpoint lstrip (s : string) : string :=
  match s with
  | EmptyString => EmptyString
  | String c s' => if isspace c then lstrip s' else s
  end.

Fixpoint rstrip (s : string) : string :=
  match s with
  | EmptyString => EmptyString
  | String c s' =>
      match rstrip s' with
      | EmptyString => if isspace c then EmptyString else String c EmptyString
      | r => String c r
      end
  end.

Definition strip (s : string) : string := rstrip (lstrip s).

Definition len (s : string) : Z := Z.of_nat (String.length s).

(** Truthiness of a [str]. *)
Definition truthy (s : string) : bool :=
  match s with
  | EmptyString => false
  | String _ _ => true
  end.

End Str.

(** ** [datetime.date] *)

Module Date.

(** [date.max.toordinal()] *)
Definition MAXORDINAL : Z := 3652059.

(** A date is held by its ordinal: day 1 is 0001-01-01. *)
Record date : Set := fromordinal { toordinal : Z }.

Definition valid (d : date) : Prop := 1 ≤ toordinal d ≤ MAXORDINAL.

(** [d - timedelta(days=n)]: out of [date.min .. date.max] it raises
    OverflowError. *)
Definition sub_days (d : date) (n : Z) : result date :=
  let o := toordinal d - n in
  if (0 <? o) && (o <=? MAXORDINAL) then Ok (fromordinal o)
  else Raise OverflowError.

Definition is_leap (year : Z) : bool :=
  (year mod 4 =? 0) && (negb (year mod 100 =? 0) || (year mod 400 =? 0)).

Definition days_before_year (year : Z) : Z :=
  let y := year - 1 in
  y * 365 + y / 4 - y / 100 + y / 400.

Definition DAYS_IN_MONTH : list Z :=
  [-1; 31; 28; 31; 30; 31; 30; 31; 31; 30; 31; 30; 31].

Definition DAYS_BEFORE_MONTH : list Z :=
  [-1; 0; 31; 59; 90; 120; 151; 181; 212; 243; 273; 304; 334].

Definition table (t : list Z) (i : Z) : Z := nth (Z.to_nat i) t 0.

Definition days_before_month (leap : bool) (month : Z) : Z :=
  table DAYS_BEFORE_MONTH month + (if (2 <? month) && leap then 1 else 0).

(** [_ymd2ord] of the datetime module. *)
Definition ymd2ord (ymd : Z * Z * Z) : Z :=
  let '(year, month, day) := ymd in
  days_before_year year + days_before_month (is_leap year) month + day.

(** The tail of [_ord2ymd]: month and day of the [n]-th day of a year
    (from 0), the month by an estimate that is corrected once. *)
Definition month_day (leapyear : bool) (n : Z) : Z * Z :=
  let month := Z.shiftr (n + 50) 5 in
  let preceding := days_before_month leapyear month in
  if n <? preceding then
    let month := month - 1 in
    let preceding :=
      preceding
      - (table DAYS_IN_MONTH month + (if (month =? 2) && leapyear then 1 else 0)) in
    (month, n - preceding + 1)
  else (month, n - preceding + 1).

(** [_ord2ymd] of the datetime module: the 400, 100, 4 and 1 year
    cycles, then the month. *)
Definition ord2ymd (n : Z) : Z * Z * Z :=
  let n := n - 1 in
  let n400 := n / 146097 in
  let n := n mod 146097 in
  let year := n400 * 400 + 1 in
  let n100 := n / 36524 in
  let n := n mod 36524 in
  let n4 := n / 1461 in
  let n := n mod 1461 in
  let n1 := n / 365 in
  let n := n mod 365 in
  let year := year + n100 * 100 + n4 * 4 + n1 in
  if (n1 =? 4) || (n100 =? 4) then (year - 1, 12, 31)
  else
    let leapyear := (n1 =? 3) && (negb (n4 =? 24) || (n100 =? 3)) in
    let '(month, day) := month_day leapyear n in
    (year, month, day).

Definition digit (k : Z) : ascii := ascii_of_N (48 + Z.to_N k).

(** ["%02d"] and ["%04d"], for the values a valid date holds. *)
Definition fmt2 (k : Z) (rest : string) : string :=
  String (digit (k / 10)) (String (digit (k mod 10)) rest).

Definition fmt4 (k : Z) (rest : string) : string :=
  String (digit (k / 1000)) (String (digit (k / 100 mod 10)) (fmt2 (k mod 100) rest)).

Definition isoformat (d : date) : string :=
  let '(year, month, day) := ord2ymd (toordinal d) in
  fmt4 year (String "-" (fmt2 month (String "-" (fmt2 day EmptyString)))).

End Date.

(** ** JSON values and the console *)

(** What [json.load] yields. A float is held by its binary64 bit pattern. *)
Inductive value : Type :=
  | VNone
  | VBool (b : bool)
  | VInt (z : Z)
  | VFloat (bits : Z)
  | VStr (s : string)
  | VList (l : list value)
  | VDict (d : gmap string value).

(** Iterating a value, as [for h in v] and [list(v)] do: a list gives its
    items, a string its characters, an object its keys; anything else
    raises TypeError. *)
Definition py_iter (v : value) : result (list value) :=
  match v with
  | VList l => Ok l
  | VStr s => Ok ((λ c, VStr (String c EmptyString)) <$> list_ascii_of_string s)
  | VDict d => Ok (VStr <$> (map_to_list d).*1)
  | VNone | VBool _ | VInt _ | VFloat _ => Raise TypeError
  end.

(** [d.get(key, default)] *)
Definition dict_get (d : gmap string value) (key : string) (default : value) : value :=
  match d !! key with
  | Some v => v
  | None => default
  end.

(** [sum(...)] of integers. *)
Definition py_sum (xs : list Z) : Z := foldr Z.add 0 xs.

(** [range(n)] *)
Definition range (n : nat) : list Z := Z.of_nat <$> seq 0 n.

(** A continuation byte of UTF-8. *)
Definition utf8_cont (b : N) : bool := ((128 <=? b) && (b <=? 191))%N.

(** [utf-8] decoding of byte values to code points, strict: a stray or
    missing continuation byte, an overlong form, a surrogate or a code
    point above U+10FFFF has no decoding. *)
Fixpoint utf8_decode (bs : list N) : option (list N) :=
  match bs with
  | [] => Some []
  | b0 :: r0 =>
      if (b0 <? 128)%N then cons b0 <$> utf8_decode r0
      else if ((194 <=? b0) && (b0 <=? 223))%N then
        match r0 with
        | b1 :: r1 =>
            if utf8_cont b1
            then cons ((b0 - 192) * 64 + (b1 - 128))%N <$> utf8_decode r1
            else None
        | _ => None
        end
      else if ((224 <=? b0) && (b0 <=? 239))%N then
        match r0 with
        | b1 :: b2 :: r2 =>
            let cp := ((b0 - 224) * 4096 + (b1 - 128) * 64 + (b2 - 128))%N in
            if utf8_cont b1 && utf8_cont b2 && (2048 <=? cp)%N
               && negb ((55296 <=? cp) && (cp <=? 57343))%N
            then cons cp <$> utf8_decode r2
            else None
        | _ => None
        end
      else if ((240 <=? b0) && (b0 <=? 244))%N then
        match r0 with
        | b1 :: b2 :: b3 :: r3 =>
            let cp := ((b0 - 240) * 262144 + (b1 - 128) * 4096
                       + (b2 - 128) * 64 + (b3 - 128))%N in
            if utf8_cont b1 && utf8_cont b2 && utf8_cont b3
               && (65536 <=? cp)%N && (cp <=? 1114111)%N
            then cons cp <$> utf8_decode r3
            else None
        | _ => None
        end
      else None
  end.

(** The part of the outside world the program touches: the terminal and
    the two paths [data/habits.json] and [data/habits.json.bak]. The three
    flags say how the operating system answers: whether [os.makedirs],
    opening and reading the data file, and [os.replace] succeed. *)
Record world : Type := mkWorld {
  stdin : list string;
  stdout : list string;
  makedirs_ok : bool;
  data_file : option (list byte);
  data_readable : bool;
  replace_ok : bool;
  backup_file : option (list byte)
}.

Definition io (A : Type) : Type := world → result A * world.

#[global] Instance io_ret : MRet io := fun _ a w => (Ok a, w).
#[global] Instance io_bind : MBind io := fun _ _ f m w =>
  match m w with
  | (Ok a, w') => f a w'
  | (Raise e, w') => (Raise e, w')
  end.

(** [try: body except (json.JSONDecodeError, OSError): handler] *)
Definition try_except {A} (body : io A) (caught : exn → bool) (handler : io A) : io A :=
  fun w =>
    match body w with
    | (Ok a, w') => (Ok a, w')
    | (Raise e, w') => if caught e then handler w' else (Raise e, w')
    end.

Definition write_stdout (s : string) (w : world) : world :=
  mkWorld (stdin w) (stdout w ++ [s]) (makedirs_ok w) (data_file w)
          (data_readable w) (replace_ok w) (backup_file w).

Definition print (s : string) : io unit := fun w => (Ok tt, write_stdout s w).

(** [input(prompt)]: at end of input it raises EOFError. *)
Definition input (prompt : string) : io string := fun w =>
  let w := write_stdout prompt w in
  match stdin w with
  | [] => (Raise EOFError, w)
  | line :: rest =>
      (Ok line,
       mkWorld rest (stdout w) (makedirs_ok w) (data_file w)
               (data_readable w) (replace_ok w) (backup_file w))
  end.

(** * The program *)

Definition DATA_PATH : string := "data/habits.json".
Definition SCHEMA_VERSION : Z := 1.

(** ** Utilities *)

Definition today_iso (today : Date.date) : string := Date.isoformat today.

(** [os.system("clear")] runs a command of the terminal; nothing the
    program printed or stored changes. *)
Definition clear_screen : io unit := mret tt.

(** [ask_nonempty]: one line of input per turn of the loop, so [fuel]
    turns are enough when [fuel] exceeds the lines left on [stdin]; [None]
    is fuel run out. *)
Fixpoint ask_nonempty_loop (fuel : nat) (prompt : string) (max_len : Z)
    : io (option string) :=
  match fuel with
  | O => mret None
  | S fuel' =>
      raw ← input prompt;
      let s := Str.strip raw in
      if negb (Str.truthy s) then
        _ ← print "Input cannot be empty.";
        ask_nonempty_loop fuel' prompt max_len
      else if max_len <? Str.len s then
        _ ← print ("Please keep it under " +:+ pretty max_len +:+ " characters.");
        ask_nonempty_loop fuel' prompt max_len
      else mret (Some s)
  end.

Definition ask_nonempty (prompt : string) (max_len : Z) : io (option string) :=
  fun w => ask_nonempty_loop (S (length (stdin w))) prompt max_len w.

(** ** Data model *)

(** The dataclass [Habit]. [completions] is annotated [List[str]]; the
    element type is a parameter because [habits_from_store] fills the
    field with whatever the document holds. *)
Record HabitOf (C : Type) : Type := mkHabit {
  id : string;
  name : string;
  created_at : string;
  completions : list C
}.
Arguments mkHabit {C} _ _ _ _.
Arguments id {C} _.
Arguments name {C} _.
Arguments created_at {C} _.
Arguments completions {C} _.

Abbreviation Habit := (HabitOf string).

Definition completion_set (self : Habit) : gset string :=
  list_to_set (completions self).

Definition is_completed_on (self : Habit) (iso_day : string) : bool :=
  bool_decide (iso_day ∈ completion_set self).

(** The two mutators return their boolean and the habit after the call. *)
Definition mark_complete (self : Habit) (iso_day : string) : bool * Habit :=
  let s := completion_set self in
  if bool_decide (iso_day ∈ s) then (false, self)
  else
    let s := {[iso_day]} ∪ s in
    (true, mkHabit (id self) (name self) (created_at self) (Str.sorted s)).

Definition unmark_complete (self : Habit) (iso_day : string) : bool * Habit :=
  let s := completion_set self in
  if negb (bool_decide (iso_day ∈ s)) then (false, self)
  else
    let s := s ∖ {[iso_day]} in
    (true, mkHabit (id self) (name self) (created_at self) (Str.sorted s)).

(** ** Persistence *)

Definition default_store : gmap string value :=
  {[ "version" := VInt SCHEMA_VERSION; "habits" := VList [] ]}.

(** [os.makedirs(DATA_DIR, exist_ok=True)] *)
Definition ensure_data_dir : io unit := fun w =>
  if makedirs_ok w then (Ok tt, w) else (Raise OSError, w).

(** [os.replace(DATA_PATH, backup)]: the data file takes the place of any
    earlier backup. *)
Definition os_replace_backup : io unit := fun w =>
  if replace_ok w then
    (Ok tt,
     mkWorld (stdin w) (stdout w) (makedirs_ok w) None
             (data_readable w) (replace_ok w) (data_file w))
  else (Raise OSError, w).

(** [os.path.exists(DATA_PATH)], with the bytes of the file when it is
    there. *)
Definition stat_data_file : io (option (list byte)) := fun w => (Ok (data_file w), w).

(** [v != SCHEMA_VERSION] for [v = store.get("version")]: Python equates
    [1], [True] and [1.0]. *)
Definition differs_from_schema_version (v : option value) : bool :=
  match v with
  | Some (VInt z) => negb (z =? SCHEMA_VERSION)
  | Some (VBool b) => negb b
  | Some (VFloat bits) => negb (bits =? 4607182418800017408)
  | _ => true
  end.

Definition is_list (v : value) : bool :=
  match v with
  | VList _ => true
  | _ => false
  end.

Section Persistence.

(** [json.loads] on the decoded text; [None] is JSONDecodeError. *)
Variable json_loads : list N → option value.

(** [with open(DATA_PATH, "r", encoding="utf-8") as f: json.load(f)] *)
Definition json_load_data (content : list byte) : io value := fun w =>
  if negb (data_readable w) then (Raise OSError, w)
  else
    match utf8_decode (Byte.to_N <$> content) with
    | None => (Raise UnicodeDecodeError, w)
    | Some text =>
        match json_loads text with
        | None => (Raise JSONDecodeError, w)
        | Some v => (Ok v, w)
        end
    end.

(** The handler of the outer [try]: move the file aside, or leave it
    where it is when the move fails. *)
Definition backup_data_file : io unit :=
  let backup := DATA_PATH +:+ ".bak" in
  try_except
    (_ ← os_replace_backup;
     print ("Warning: data file was corrupted. Backed up to " +:+ backup))
    (fun e => match e with OSError => true | _ => false end)
    (mret tt).

(** The checks on a document that parsed. *)
Definition checked_store (parsed : value) : gmap string value :=
  match parsed with
  | VDict store =>
      match store !! "habits" with
      | None => default_store
      | Some _ =>
          let store :=
            if differs_from_schema_version (store !! "version")
            then <["version" := VInt SCHEMA_VERSION]> store
            else store in
          if negb (is_list (dict_get store "habits" VNone))
          then <["habits" := VList []]> store
          else store
      end
  | _ => default_store
  end.

Definition load_store : io (gmap string value) :=
  _ ← ensure_data_dir;
  existing ← stat_data_file;
  match existing with
  | None => mret default_store
  | Some content =>
      parsed ←
        try_except
          (v ← json_load_data content; mret (Some v))
          (fun e => match e with JSONDecodeError | OSError => true | _ => false end)
          (_ ← backup_data_file; mret None);
      match parsed with
      | None => mret default_store
      | Some v => mret (checked_store v)
      end
  end.

End Persistence.

(** ** Store codec *)

Section Codec.

(** [repr] of a value that is not a string; [str(v)] is [v] itself on a
    string and [repr(v)] otherwise. *)
Variable repr : value → string.
(** [date.today()] *)
Variable today : Date.date.

Definition py_str (v : value) : string :=
  match v with
  | VStr s => s
  | _ => repr v
  end.

(** The [Habit(...)] call of the loop body: of its four arguments only
    [list(...)] can raise. *)
Definition habit_of_record (h : gmap string value) : result (HabitOf value) :=
  let id := py_str (dict_get h "id" (VStr "")) in
  let name := py_str (dict_get h "name" (VStr "")) in
  let created_at := py_str (dict_get h "created_at" (VStr (today_iso today))) in
  completions ← py_iter (dict_get h "completions" (VList []));
  Ok (mkHabit id name created_at completions).

(** The [for] loop over the entries. *)
Fixpoint habits_from_entries (entries : list value) : result (list (HabitOf value)) :=
  match entries with
  | [] => Ok []
  | VDict h :: rest =>
      habit ← habit_of_record h;
      habits ← habits_from_entries rest;
      Ok (habit :: habits)
  | _ :: rest => habits_from_entries rest
  end.

Definition habits_from_store (store : gmap string value) : result (list (HabitOf value)) :=
  entries ← py_iter (dict_get store "habits" (VList []));
  habits ← habits_from_entries entries;
  Ok (filter (λ h, Str.truthy (id h) && Str.truthy (name h)) habits).

End Codec.

(** [dataclasses.asdict]: the four fields, the list copied. *)
Definition asdict_fields (h : Habit) : gmap string value :=
  {[ "id" := VStr (id h);
     "name" := VStr (name h);
     "created_at" := VStr (created_at h);
     "completions" := VList (VStr <$> completions h) ]}.

Definition asdict (h : Habit) : value := VDict (asdict_fields h).

Definition store_from_habits (habits : list Habit) : gmap string value :=
  {[ "version" := VInt SCHEMA_VERSION; "habits" := VList (asdict <$> habits) ]}.

(** ** Core logic *)

Section Core.

(** [date.today()] *)
Variable today : Date.date.

(** The [while] loop of [current_streak]; [None] is fuel run out. *)
Fixpoint streak_loop (fuel : nat) (completed : gset string)
    (day : Date.date) (streak : Z) : option (result Z) :=
  match fuel with
  | O => None
  | S fuel' =>
      if bool_decide (Date.isoformat day ∈ completed) then
        match Date.sub_days day 1 with
        | Ok day' => streak_loop fuel' completed day' (streak + 1)
        | Raise e => Some (Raise e)
        end
      else Some (Ok streak)
  end.

Definition current_streak_fuel (fuel : nat) (habit : Habit) (ref : option Date.date)
    : option (result Z) :=
  let ref := default today ref in
  let completed := completion_set habit in
  if bool_decide (completed = ∅) then Some (Ok 0)
  else
    match (if bool_decide (Date.isoformat ref ∈ completed) then Ok ref
           else Date.sub_days ref 1) with
    | Raise e => Some (Raise e)
    | Ok start => streak_loop fuel completed start 0
    end.

(** Each turn of the loop moves [day] one day back, so the ordinal of
    the reference date bounds the turns. *)
Definition current_streak (habit : Habit) (ref : option Date.date) : option (result Z) :=
  current_streak_fuel (S (Z.to_nat (Date.toordinal (default today ref)))) habit ref.

Definition weekly_summary (habit : Habit) (ref : option Date.date) : result Z :=
  let ref := default today ref in
  let completed := completion_set habit in
  days ← comprehension (λ i, d ← Date.sub_days ref i; Ok (Date.isoformat d)) (range 7);
  Ok (py_sum ((λ _, 1) <$> filter (λ d, d ∈ completed) days)).

End Core.

(** ** CLI *)

Definition print_header (title : string) : io unit :=
  _ ← print "========================================";
  _ ← print title;
  print "========================================".

Section Actions.

(** [date.today()] and the value of [uuid.uuid4().hex[:8]]. *)
Variable today : Date.date.
Variable fresh_id : string.

(** [action_add] returns [None]; the list it appends to is returned next
    to it. A run of the input loop out of fuel is [None]. *)
Definition action_add (habits : list Habit) : io (option (list Habit)) :=
  _ ← clear_screen;
  _ ← print_header "Add a Habit";
  asked ← ask_nonempty "Habit name: " 50;
  match asked with
  | None => mret None
  | Some new_name =>
      if existsb (λ h, String.eqb (Str.lower (name h)) (Str.lower new_name)) habits then
        _ ← print "A habit with that name already exists.";
        mret (Some habits)
      else
        let h := mkHabit fresh_id new_name (today_iso today) [] in
        let habits := habits ++ [h] in
        _ ← print ("Added habit: " +:+ name h);
        mret (Some habits)
  end.

End Actions.

(** ** Saving *)

(** How the write of [save_store] can go: [open(DATA_PATH, "w")] fails and
    the file is left as it was, or the file is opened (and so emptied) and
    only the first [written] bytes reach it before the write fails, or all
    goes well. *)
Inductive write_fault : Set :=
  | NoFault
  | OpenFails
  | WriteFails (written : nat).

Section Saving.

(** The bytes [json.dump(store, f, indent=2)] writes through the utf-8
    text layer. *)
Variable json_dumps : value → list byte.
Variable fault : write_fault.

Definition write_data_file (content : list byte) : io unit := fun w =>
  let put bytes :=
    mkWorld (stdin w) (stdout w) (makedirs_ok w) (Some bytes)
            (data_readable w) (replace_ok w) (backup_file w) in
  match fault with
  | NoFault => (Ok tt, put content)
  | OpenFails => (Raise OSError, w)
  | WriteFails written => (Raise OSError, put (take written content))
  end.

Definition save_store (store : gmap string value) : io unit :=
  _ ← ensure_data_dir;
  write_data_file (json_dumps (VDict store)).

End Saving.

(** ** Looking a habit up *)

Fixpoint find_habit (habits : list Habit) (habit_id : string) : option Habit :=
  match habits with
  | [] => None
  | h :: rest => if String.eqb (id h) habit_id then Some h else find_habit rest habit_id
  end.

(** ** Asking for one of several answers *)

(** ['sep'.join(items)] *)
Fixpoint join (sep : string) (items : list string) : string :=
  match items with
  | [] => ""
  | [s] => s
  | s :: rest => s +:+ sep +:+ join sep rest
  end.

(** [ask_choice]: as for [ask_nonempty], one line of input per turn and
    [None] for fuel run out. *)
Fixpoint ask_choice_loop (fuel : nat) (prompt : string)
    (choices choices_lower : list string) : io (option string) :=
  match fuel with
  | O => mret None
  | S fuel' =>
      line ← input prompt;
      let raw := Str.lower (Str.strip line) in
      if bool_decide (raw ∈ choices_lower) then mret (Some raw)
      else
        _ ← print ("Please enter one of: " +:+ join ", " choices);
        ask_choice_loop fuel' prompt choices choices_lower
  end.

Definition ask_choice (prompt : string) (choices : list string) : io (option string) :=
  let choices_lower := Str.lower <$> choices in
  fun w => ask_choice_loop (S (length (stdin w))) prompt choices choices_lower w.

(** ** The weekly report *)

Section Report.

(** [date.today()] *)
Variable today : Date.date.

(** The [for] loop of [action_weekly_summary]. *)
Fixpoint weekly_summary_lines (habits : list Habit) : io unit :=
  match habits with
  | [] => mret tt
  | h :: rest =>
      fun w =>
        match weekly_summary today h None with
        | Raise e => (Raise e, w)
        | Ok hits =>
            (_ ← print ("- " +:+ name h +:+ ": " +:+ pretty hits +:+ "/7 days");
             weekly_summary_lines rest) w
        end
  end.

Definition action_weekly_summary (habits : list Habit) : io unit :=
  _ ← clear_screen;
  _ ← print_header "Weekly Summary (Last 7 Days)";
  match habits with
  | [] => print "No habits yet."
  | _ => weekly_summary_lines habits
  end.

End Report.

(** * Vocabulary of the statements *)

(** The names that collide with [new_name]: equal once both are in lower
    case. *)
Definition same_name (new_name : string) (h : Habit) : Prop :=
  Str.lower (name h) = Str.lower new_name.

Definition well_formed (h : Habit) : Prop := id h ≠ ""%string ∧ name h ≠ ""%string.

(** A habit as [habits_from_store] builds it from its own serialization. *)
Definition as_decoded (h : Habit) : HabitOf value :=
  mkHabit (id h) (name h) (created_at h) (VStr <$> completions h).

(** The date [i] days before [ref]. *)
Definition day_before (ref : Date.date) (i : Z) : Date.date :=
  Date.fromordinal (Date.toordinal ref - i).

Definition completed_on (h : Habit) (d : Date.date) : Prop :=
  Date.isoformat d ∈ completion_set h.

(** The day the count starts from: the reference date when it is
    completed, the day before it otherwise. *)
Definition streak_start (h : Habit) (ref : Date.date) : Date.date :=
  if is_completed_on h (Date.isoformat ref) then ref else day_before ref 1.

(** The 7 calendar days that end at [ref], as [isoformat] writes them. *)
Definition week_days (ref : Date.date) : list string :=
  (λ i, Date.isoformat (day_before ref i)) <$> range 7.

(** The dates of the completion set that fall in that week. *)
Definition completions_in_week (h : Habit) (ref : Date.date) : gset string :=
  filter (λ d, d ∈ week_days ref) (completion_set h).

(** The stored form the mutators produce: no date twice, dates ascending. *)
Definition canonical (l : list string) : Prop := NoDup l ∧ Sorted Str.le l.

(** A line [ask_nonempty] takes: not blank, and within [max_len] once
    stripped. *)
Definition acceptable (max_len : Z) (raw : string) : Prop :=
  Str.truthy (Str.strip raw) = true ∧ Str.len (Str.strip raw) ≤ max_len.

(** A line [ask_choice] takes: one of the choices, case and surrounding
    blanks aside. *)
Definition chosen (choices : list string) (line : string) : Prop :=
  Str.lower (Str.strip line) ∈ Str.lower <$> choices.

(** The line of the weekly report for a habit. *)
Definition report_line (h : Habit) (ref : Date.date) : string :=
  "- " +:+ name h +:+ ": " +:+ pretty (Z.of_nat (size (completions_in_week h ref)))
       +:+ "/7 days".

(** * Properties *)

(** ** The order on strings and [sorted] *)

Module StrFacts.

Lemma compare_trans_le s1 : ∀ s2 s3,
  String.compare s1 s2 ≠ Gt → String.compare s2 s3 ≠ Gt → String.compare s1 s3 ≠ Gt.
Proof.
  induction s1 as [|c1 s1 IH]; intros [|c2 s2] [|c3 s3]; simpl; try done.
  unfold Ascii.compare.
  destruct (N.compare_spec (N_of_ascii c1) (N_of_ascii c2)) as [E12|L12|G12];
    destruct (N.compare_spec (N_of_ascii c2) (N_of_ascii c3)) as [E23|L23|G23];
    destruct (N.compare_spec (N_of_ascii c1) (N_of_ascii c3)) as [E13|L13|G13];
    try done; try lia; try (intros; exfalso; lia); eauto.
Qed.

#[global] Instance le_total : Total Str.le.
Proof. intros s1 s2. apply String.leb_total. Qed.

#[global] Instance le_trans : Transitive Str.le.
Proof.
  intros s1 s2 s3. unfold Str.le, String.leb. intros H12 H23.
  pose proof (compare_trans_le s1 s2 s3) as H.
  destruct (String.compare s1 s2), (String.compare s2 s3), (String.compare s1 s3);
    try done; exfalso; apply H; done.
Qed.

#[global] Instance le_antisym : AntiSymm (=) Str.le.
Proof. intros s1 s2. apply String.leb_antisym. Qed.

Lemma sorted_Sorted s : Sorted Str.le (Str.sorted s).
Proof. apply Sorted_merge_sort, _. Qed.

Lemma sorted_Permutation s : Str.sorted s ≡ₚ elements s.
Proof. apply merge_sort_Permutation. Qed.

Lemma sorted_NoDup s : NoDup (Str.sorted s).
Proof. rewrite sorted_Permutation. apply NoDup_elements. Qed.

Lemma elem_of_sorted x s : x ∈ Str.sorted s ↔ x ∈ s.
Proof. rewrite sorted_Permutation. apply elem_of_elements. Qed.

Lemma list_to_set_sorted s : list_to_set (Str.sorted s) = s.
Proof.
  apply set_eq. intros x. rewrite elem_of_list_to_set. apply elem_of_sorted.
Qed.

End StrFacts.

(** ** Dates: [sub_days], the calendar conversion and [isoformat] *)

Module DateFacts.
Import Date.

Lemma sub_days_Ok d n d' :
  sub_days d n = Ok d' ↔
  toordinal d' = toordinal d - n ∧ 1 ≤ toordinal d - n ≤ MAXORDINAL.
Proof.
  unfold sub_days. destruct d as [o], d' as [o']; simpl.
  destruct (0 <? o - n) eqn:E1, (o - n <=? MAXORDINAL) eqn:E2; simpl;
    split; try (intros [= <-]); try (intros [-> ?]); try lia; try done.
Qed.

Lemma month_day_spec leap n :
  0 ≤ n < 365 →
  let '(m, d) := month_day leap n in
  1 ≤ m ≤ 12 ∧ 1 ≤ d ≤ 31 ∧ days_before_month leap m + d = n + 1.
Proof.
  intros Hn.
  assert (Hall : Forall (λ k, let '(m, d) := month_day leap (Z.of_nat k) in
             1 ≤ m ≤ 12 ∧ 1 ≤ d ≤ 31
             ∧ days_before_month leap m + d = Z.of_nat k + 1) (seq 0 365)).
  { apply Forall_forall. intros k Hk.
    assert (Hb : forallb (λ k, let '(m, d) := month_day leap (Z.of_nat k) in
               (1 <=? m) && (m <=? 12) && (1 <=? d) && (d <=? 31)
               && (days_before_month leap m + d =? Z.of_nat k + 1)) (seq 0 365) = true)
      by (destruct leap; vm_compute; reflexivity).
    rewrite forallb_forall in Hb. specialize (Hb k).
    rewrite <- list_elem_of_In in Hb. specialize (Hb Hk).
    destruct (month_day leap (Z.of_nat k)) as [m d]. lia. }
  rewrite Forall_forall in Hall. specialize (Hall (Z.to_nat n)).
  rewrite Z2Nat.id in Hall by lia. apply Hall.
  apply elem_of_seq. lia.
Qed.

Lemma is_leap_cycles a b c e :
  0 ≤ b ≤ 3 → 0 ≤ c ≤ 24 → 0 ≤ e ≤ 3 →
  is_leap (a * 400 + 1 + b * 100 + c * 4 + e)
  = (e =? 3) && (negb (c =? 24) || (b =? 3)).
Proof.
  intros Hb Hc He. unfold is_leap.
  repeat match goal with
         | |- context [?x =? ?y] => destruct (Z.eqb_spec x y)
         end; simpl; try reflexivity; exfalso; Z.div_mod_to_equations; lia.
Qed.

Lemma days_before_year_cycles a b c e :
  0 ≤ b ≤ 3 → 0 ≤ c ≤ 24 → 0 ≤ e ≤ 3 →
  days_before_year (a * 400 + 1 + b * 100 + c * 4 + e)
  = a * 146097 + b * 36524 + c * 1461 + e * 365.
Proof.
  intros Hb Hc He. unfold days_before_year. Z.div_mod_to_equations. lia.
Qed.

Lemma ymd2ord_ord2ymd n : 1 ≤ n → ymd2ord (ord2ymd n) = n.
Proof.
  intros Hn. unfold ord2ymd.
  set (n0 := n - 1).
  set (a := n0 / 146097). set (r1 := n0 mod 146097).
  set (b := r1 / 36524). set (r2 := r1 mod 36524).
  set (c := r2 / 1461). set (r3 := r2 mod 1461).
  set (e := r3 / 365). set (r4 := r3 mod 365).
  assert (Hdec : n0 = a * 146097 + b * 36524 + c * 1461 + e * 365 + r4
                 ∧ 0 ≤ b ≤ 4 ∧ 0 ≤ c ≤ 24 ∧ 0 ≤ e ≤ 4 ∧ 0 ≤ r4 < 365
                 ∧ (b = 4 → c = 0 ∧ e = 0 ∧ r4 = 0)
                 ∧ (e = 4 → r4 = 0 ∧ c ≤ 23)).
  { subst a r1 b r2 c r3 e r4. Z.div_mod_to_equations. lia. }
  clearbody a b c e r4. clear r1 r2 r3.
  destruct Hdec as (Hn0 & Hb & Hc & He & Hr & Hb4 & He4).
  unfold ymd2ord.
  destruct (Z.eqb_spec e 4) as [->|Hne]; simpl.
  { destruct He4 as [-> Hc23]; [done|].
    assert (b ≠ 4) by lia.
    replace (a * 400 + 1 + b * 100 + c * 4 + 4 - 1)
      with (a * 400 + 1 + b * 100 + c * 4 + 3) by lia.
    rewrite is_leap_cycles, days_before_year_cycles by lia.
    destruct (Z.eqb_spec c 24); [lia|]. vm_compute days_before_month. lia. }
  destruct (Z.eqb_spec b 4) as [->|Hnb]; simpl.
  { destruct Hb4 as (-> & -> & ->); [done|].
    replace (a * 400 + 1 + 4 * 100 + 0 * 4 + 0 - 1)
      with (a * 400 + 1 + 3 * 100 + 24 * 4 + 3) by lia.
    rewrite is_leap_cycles, days_before_year_cycles by lia.
    vm_compute days_before_month. lia. }
  pose proof (month_day_spec ((e =? 3) && (negb (c =? 24) || (b =? 3))) r4 Hr) as Hmd.
  destruct (month_day _ r4) as [m d].
  rewrite is_leap_cycles, days_before_year_cycles by lia. lia.
Qed.

Lemma ord2ymd_range n :
  1 ≤ n ≤ MAXORDINAL →
  let '(y, m, d) := ord2ymd n in 1 ≤ y ≤ 9999 ∧ 1 ≤ m ≤ 12 ∧ 1 ≤ d ≤ 31.
Proof.
  intros Hn. unfold MAXORDINAL in Hn. unfold ord2ymd.
  set (n0 := n - 1).
  set (a := n0 / 146097). set (r1 := n0 mod 146097).
  set (b := r1 / 36524). set (r2 := r1 mod 36524).
  set (c := r2 / 1461). set (r3 := r2 mod 1461).
  set (e := r3 / 365). set (r4 := r3 mod 365).
  assert (Hdec : n0 = a * 146097 + b * 36524 + c * 1461 + e * 365 + r4
                 ∧ 0 ≤ a ∧ 0 ≤ b ≤ 4 ∧ 0 ≤ c ≤ 24 ∧ 0 ≤ e ≤ 4 ∧ 0 ≤ r4 < 365).
  { subst a r1 b r2 c r3 e r4. Z.div_mod_to_equations. lia. }
  clearbody a b c e r4. clear r1 r2 r3.
  destruct Hdec as (Hn0 & Ha & Hb & Hc & He & Hr).
  destruct (Z.eqb_spec e 4) as [->|Hne]; simpl; [lia|].
  destruct (Z.eqb_spec b 4) as [->|Hnb]; simpl; [lia|].
  pose proof (month_day_spec ((e =? 3) && (negb (c =? 24) || (b =? 3))) r4 Hr) as Hmd.
  destruct (month_day _ r4) as [m d]. lia.
Qed.

Lemma digit_inj j k : 0 ≤ j ≤ 9 → 0 ≤ k ≤ 9 → digit j = digit k → j = k.
Proof.
  intros Hj Hk H. apply (f_equal N_of_ascii) in H. unfold digit in H.
  rewrite !N_ascii_embedding in H by lia. lia.
Qed.

Lemma fmt2_inj j k r r' :
  0 ≤ j ≤ 99 → 0 ≤ k ≤ 99 → fmt2 j r = fmt2 k r' → j = k ∧ r = r'.
Proof.
  intros Hj Hk. unfold fmt2. intros [= H1 H2 ->].
  apply digit_inj in H1; [|Z.div_mod_to_equations; lia..].
  apply digit_inj in H2; [|Z.div_mod_to_equations; lia..].
  split; [|done]. Z.div_mod_to_equations. lia.
Qed.

Lemma fmt4_inj j k r r' :
  0 ≤ j ≤ 9999 → 0 ≤ k ≤ 9999 → fmt4 j r = fmt4 k r' → j = k ∧ r = r'.
Proof.
  intros Hj Hk. unfold fmt4, fmt2. intros [= H1 H2 H3 H4 ->].
  apply digit_inj in H1; [|Z.div_mod_to_equations; lia..].
  apply digit_inj in H2; [|Z.div_mod_to_equations; lia..].
  apply digit_inj in H3; [|Z.div_mod_to_equations; lia..].
  apply digit_inj in H4; [|Z.div_mod_to_equations; lia..].
  split; [|done]. Z.div_mod_to_equations. lia.
Qed.

Lemma isoformat_inj d1 d2 :
  valid d1 → valid d2 → isoformat d1 = isoformat d2 → d1 = d2.
Proof.
  intros V1 V2. destruct d1 as [o1], d2 as [o2]. unfold valid, isoformat in *.
  simpl in *.
  pose proof (ord2ymd_range o1 V1) as R1. pose proof (ord2ymd_range o2 V2) as R2.
  pose proof (ymd2ord_ord2ymd o1 (proj1 V1)) as E1.
  pose proof (ymd2ord_ord2ymd o2 (proj1 V2)) as E2.
  destruct (ord2ymd o1) as [[y1 m1] dd1], (ord2ymd o2) as [[y2 m2] dd2].
  intros H.
  apply fmt4_inj in H as [-> H]; [|lia..].
  assert (H' : fmt2 m1 (String "-" (fmt2 dd1 EmptyString))
               = fmt2 m2 (String "-" (fmt2 dd2 EmptyString))) by congruence.
  clear H. apply fmt2_inj in H' as [-> H]; [|lia..].
  assert (H' : fmt2 dd1 EmptyString = fmt2 dd2 EmptyString) by congruence.
  clear H. apply fmt2_inj in H' as [-> _]; [|lia..].
  congruence.
Qed.
End DateFacts.

(** ** The habit entity *)

Lemma is_completed_on_true (self : Habit) (iso_day : string) :
  is_completed_on self iso_day = true ↔ iso_day ∈ completion_set self.
Proof. unfold is_completed_on. apply bool_decide_eq_true. Qed.

Lemma is_completed_on_false (self : Habit) (iso_day : string) :
  is_completed_on self iso_day = false ↔ iso_day ∉ completion_set self.
Proof. unfold is_completed_on. apply bool_decide_eq_false. Qed.

Lemma completion_set_sorted (i n c : string) (s : gset string) :
  completion_set (mkHabit i n c (Str.sorted s)) = s.
Proof. apply StrFacts.list_to_set_sorted. Qed.

(** C6. [mark_complete(h, d)] puts [d] in the completion set, so that
    [is_completed_on(h, d)] holds afterwards; it returns [True] exactly when
    [d] was not there before; a second call with the same date returns
    [False] and changes nothing; and when it has inserted, the stored
    completions are without duplicates and ascending. *)
Theorem mark_complete_spec (h : Habit) (d : string) :
  let '(inserted, h') := mark_complete h d in
  completion_set h' = {[d]} ∪ completion_set h
  ∧ is_completed_on h' d = true
  ∧ inserted = negb (is_completed_on h d)
  ∧ mark_complete h' d = (false, h')
  ∧ (inserted = true → NoDup (completions h') ∧ Sorted Str.le (completions h'))
  ∧ (inserted = false → h' = h)
  ∧ (id h', name h', created_at h') = (id h, name h, created_at h).
Proof.
  unfold is_completed_on. unfold mark_complete at 1.
  destruct (bool_decide (d ∈ completion_set h)) eqn:E.
  - pose proof E as Hin. apply bool_decide_eq_true in Hin.
    split_and!; try done.
    + set_solver.
    + unfold mark_complete. by rewrite E.
  - apply bool_decide_eq_false in E. cbn [completions id name created_at].
    rewrite completion_set_sorted.
    assert (Hin : d ∈ {[d]} ∪ completion_set h) by set_solver.
    split_and!; try done.
    + by apply bool_decide_eq_true.
    + unfold mark_complete. rewrite completion_set_sorted.
      by rewrite (bool_decide_eq_true_2 _ Hin).
    + intros _. split; [apply StrFacts.sorted_NoDup | apply StrFacts.sorted_Sorted].
Qed.

Lemma completion_set_mark (h : Habit) (d : string) :
  completion_set (mark_complete h d).2 = {[d]} ∪ completion_set h.
Proof.
  unfold mark_complete. case_bool_decide as Hin; cbn [snd].
  - set_solver.
  - apply completion_set_sorted.
Qed.

Lemma completion_set_unmark (h : Habit) (d : string) :
  completion_set (unmark_complete h d).2 = completion_set h ∖ {[d]}.
Proof.
  unfold unmark_complete. case_bool_decide as Hin; cbn [negb snd].
  - apply completion_set_sorted.
  - set_solver.
Qed.

(** C7. After [mark_complete(h, d)], [unmark_complete(h, d)] removes [d]:
    it returns [True] and [is_completed_on(h, d)] is [False] again; and on a
    date that is not in the completion set [unmark_complete] returns
    [False] and leaves the habit as it was. *)
Theorem unmark_complete_spec (h : Habit) (d : string) :
  (let h1 := (mark_complete h d).2 in
   let '(removed, h2) := unmark_complete h1 d in
   removed = true
   ∧ is_completed_on h2 d = false
   ∧ completion_set h2 = completion_set h ∖ {[d]})
  ∧ (is_completed_on h d = false → unmark_complete h d = (false, h)).
Proof.
  split.
  - pose proof (completion_set_mark h d) as Hset.
    destruct (mark_complete h d) as [inserted h1]. simpl in *.
    unfold unmark_complete. rewrite bool_decide_eq_true_2 by set_solver. simpl.
    rewrite is_completed_on_false, completion_set_sorted.
    repeat split; set_solver.
  - unfold unmark_complete, is_completed_on. by intros ->.
Qed.

Example mark_unmark_run :
  let h := mkHabit "a1" "Run" "2024-01-01" ["2024-03-02"; "2024-03-01"; "2024-03-02"] in
  mark_complete h "2024-02-29"
  = (true, mkHabit "a1" "Run" "2024-01-01" ["2024-02-29"; "2024-03-01"; "2024-03-02"])
  ∧ mark_complete h "2024-03-01" = (false, h)
  ∧ unmark_complete h "2024-03-02"
    = (true, mkHabit "a1" "Run" "2024-01-01" ["2024-03-01"])
  ∧ unmark_complete h "2024-02-29" = (false, h).
Proof. vm_compute. done. Qed.

(** ** The prompt *)

(** [ask_nonempty] never runs out of fuel: it returns a line of input
    stripped of blanks, not empty and within [max_len], or EOFError when the
    input ends first. *)
Lemma ask_nonempty_loop_total (prompt : string) (max_len : Z) (fuel : nat) (w : world) :
  (length (stdin w) < fuel)%nat →
  let '(r, w') := ask_nonempty_loop fuel prompt max_len w in
  match r with
  | Ok (Some s) => Str.truthy s = true ∧ Str.len s ≤ max_len
                   ∧ ∃ raw, raw ∈ stdin w ∧ s = Str.strip raw
  | Ok None => False
  | Raise e => e = EOFError ∧ stdin w' = []
  end.
Proof.
  revert w. induction fuel as [|fuel IH]; intros w Hlen; [lia|].
  cbn [ask_nonempty_loop]. unfold mbind, io_bind, input, print.
  destruct w as [inp out mk df dr ro bf]. cbn [stdin write_stdout] in *.
  destruct inp as [|raw rest]; [done|]. cbn [length] in Hlen.
  destruct (Str.truthy (Str.strip raw)) eqn:Ht; cbn [negb].
  - destruct (Z.ltb_spec max_len (Str.len (Str.strip raw))) as [Hlong|Hshort].
    + cbn [stdin stdout makedirs_ok data_file data_readable replace_ok backup_file].
      match goal with |- context [ask_nonempty_loop fuel prompt max_len ?w0] =>
        specialize (IH w0) end.
      cbn [stdin write_stdout] in IH. specialize (IH ltac:(lia)).
      destruct (ask_nonempty_loop _ _ _ _) as [[[s|]|e] w']; try done.
      destruct IH as (? & ? & raw' & ? & ?). split_and!; try done.
      exists raw'. split; [by apply list_elem_of_further|done].
    + cbn [mret io_ret]. split_and!; try done.
      exists raw. split; [apply list_elem_of_here|done].
  - cbn [stdin stdout makedirs_ok data_file data_readable replace_ok backup_file].
    match goal with |- context [ask_nonempty_loop fuel prompt max_len ?w0] =>
      specialize (IH w0) end.
    cbn [stdin write_stdout] in IH. specialize (IH ltac:(lia)).
    destruct (ask_nonempty_loop _ _ _ _) as [[[s|]|e] w']; try done.
    destruct IH as (? & ? & raw' & ? & ?). split_and!; try done.
    exists raw'. split; [by apply list_elem_of_further|done].
Qed.

Lemma ask_nonempty_total (prompt : string) (max_len : Z) (w : world) :
  ∀ w', ask_nonempty prompt max_len w ≠ (Ok None, w').
Proof.
  intros w' Heq. unfold ask_nonempty in Heq.
  pose proof (ask_nonempty_loop_total prompt max_len (S (length (stdin w))) w) as Ht.
  rewrite Heq in Ht. apply Ht. lia.
Qed.
(** ** Adding a habit *)

Lemma existsb_same_name (new_name : string) (habits : list Habit) :
  existsb (λ h, String.eqb (Str.lower (name h)) (Str.lower new_name)) habits = true
  ↔ ∃ h, h ∈ habits ∧ same_name new_name h.
Proof.
  rewrite existsb_exists. unfold same_name.
  split; intros (h & Hin & Heq); exists h.
  - by rewrite list_elem_of_In, <- String.eqb_eq.
  - by rewrite <- list_elem_of_In, String.eqb_eq.
Qed.

(** C9. When the name read from the prompt equals, case-insensitively, the
    name of a habit of the list, [action_add] returns normally, leaves the
    list as it is, and tells the rejection by its message. *)
Theorem action_add_duplicate (today : Date.date) (fresh_id : string)
    (habits : list Habit) (w w' : world) (new_name : string) :
  ask_nonempty "Habit name: " 50 (print_header "Add a Habit" w).2 = (Ok (Some new_name), w') →
  (∃ h, h ∈ habits ∧ same_name new_name h) →
  action_add today fresh_id habits w
  = (Ok (Some habits), write_stdout "A habit with that name already exists." w').
Proof.
  intros Hask Hdup. apply existsb_same_name in Hdup.
  unfold action_add, mbind, io_bind, clear_screen, mret, io_ret.
  destruct (print_header "Add a Habit" w) as [r w1] eqn:Hh.
  assert (r = Ok tt) as -> by (unfold print_header, mbind, io_bind, print in Hh; congruence).
  simpl in Hask. rewrite Hask, Hdup. reflexivity.
Qed.

Lemma action_add_duplicate_witness :
  let habits := [mkHabit "a1" "run" "2024-01-01" ["2024-01-02"]] in
  let w := mkWorld ["Run"] [] true None true true None in
  action_add (Date.fromordinal 738886) "0f3a9c1e" habits w
  = (Ok (Some habits),
     mkWorld [] ["========================================"; "Add a Habit";
                 "========================================"; "Habit name: ";
                 "A habit with that name already exists."]
             true None true true None).
Proof.
  intros habits w.
  apply (action_add_duplicate (Date.fromordinal 738886) "0f3a9c1e" habits w
           (mkWorld [] ["========================================"; "Add a Habit";
                        "========================================"; "Habit name: "]
                    true None true true None) "Run").
  - vm_compute. reflexivity.
  - exists (mkHabit "a1" "run" "2024-01-01" ["2024-01-02"]). split.
    + apply list_elem_of_here.
    + vm_compute. reflexivity.
Defined.

(** Without a collision the new habit goes to the end of the list. *)
Lemma action_add_fresh (today : Date.date) (fresh_id : string)
    (habits : list Habit) (w w' : world) (new_name : string) :
  ask_nonempty "Habit name: " 50 (print_header "Add a Habit" w).2 = (Ok (Some new_name), w') →
  (∀ h, h ∈ habits → ¬ same_name new_name h) →
  action_add today fresh_id habits w
  = (Ok (Some (habits ++ [mkHabit fresh_id new_name (today_iso today) []])),
     write_stdout ("Added habit: " +:+ new_name) w').
Proof.
  intros Hask Hnew.
  assert (Hex : existsb (λ h, String.eqb (Str.lower (name h)) (Str.lower new_name)) habits
                = false).
  { apply not_true_is_false. rewrite existsb_same_name. intros (h & Hin & Hs).
    by apply (Hnew h). }
  unfold action_add, mbind, io_bind, clear_screen, mret, io_ret.
  destruct (print_header "Add a Habit" w) as [r w1] eqn:Hh.
  assert (r = Ok tt) as -> by (unfold print_header, mbind, io_bind, print in Hh; congruence).
  simpl in Hask. rewrite Hask, Hex. reflexivity.
Qed.

(** ** The store codec *)

Lemma asdict_fields_lookup (h : Habit) :
  asdict_fields h !! "id" = Some (VStr (id h))
  ∧ asdict_fields h !! "name" = Some (VStr (name h))
  ∧ asdict_fields h !! "created_at" = Some (VStr (created_at h))
  ∧ asdict_fields h !! "completions" = Some (VList (VStr <$> completions h)).
Proof. unfold asdict_fields. split_and!; by simplify_map_eq. Qed.

Lemma asdict_fields_dom (h : Habit) :
  dom (asdict_fields h) = {[ "id"; "name"; "created_at"; "completions" ]}.
Proof. unfold asdict_fields. rewrite !dom_insert_L, dom_singleton_L. set_solver. Qed.

Lemma store_from_habits_lookup (habits : list Habit) :
  store_from_habits habits !! "version" = Some (VInt SCHEMA_VERSION)
  ∧ store_from_habits habits !! "habits" = Some (VList (asdict <$> habits)).
Proof. unfold store_from_habits. split; by simplify_map_eq. Qed.

Lemma truthy_true (s : string) : Str.truthy s = true ↔ s ≠ ""%string.
Proof. destruct s; simpl; split; done. Qed.

Lemma habit_of_record_asdict (repr : value → string) (today : Date.date) (h : Habit) :
  habit_of_record repr today (asdict_fields h) = Ok (as_decoded h).
Proof.
  destruct (asdict_fields_lookup h) as (Hi & Hn & Hc & Hl).
  unfold habit_of_record, dict_get. rewrite Hi, Hn, Hc, Hl. reflexivity.
Qed.

Lemma habits_from_entries_asdict (repr : value → string) (today : Date.date)
    (habits : list Habit) :
  habits_from_entries repr today (asdict <$> habits) = Ok (as_decoded <$> habits).
Proof.
  induction habits as [|h habits IH]; [done|].
  cbn [fmap list_fmap habits_from_entries asdict].
  rewrite habit_of_record_asdict. cbn [mbind result_bind].
  change (list_fmap _ _ asdict habits) with (asdict <$> habits).
  rewrite IH. reflexivity.
Qed.

(** C4, as the code has it. [store_from_habits] returns a document whose
    [version] is the schema version and whose [habits] holds, in order, one
    record per habit with exactly its four fields; the completions of a
    habit are written in the order in which the habit stores them. *)
Theorem store_from_habits_spec (habits : list Habit) :
  store_from_habits habits !! "version" = Some (VInt SCHEMA_VERSION)
  ∧ dom (store_from_habits habits) = {[ "version"; "habits" ]}
  ∧ ∃ records,
      store_from_habits habits !! "habits" = Some (VList records)
      ∧ length records = length habits
      ∧ ∀ (i : nat) (h : Habit), habits !! i = Some h →
          ∃ d, records !! i = Some (VDict d)
               ∧ dom d = {[ "id"; "name"; "created_at"; "completions" ]}
               ∧ d !! "id" = Some (VStr (id h))
               ∧ d !! "name" = Some (VStr (name h))
               ∧ d !! "created_at" = Some (VStr (created_at h))
               ∧ d !! "completions" = Some (VList (VStr <$> completions h)).
Proof.
  destruct (store_from_habits_lookup habits) as [Hv Hh].
  split; [done|]. split.
  { unfold store_from_habits. rewrite !dom_insert_L, dom_singleton_L. set_solver. }
  exists (asdict <$> habits). split; [done|]. split; [apply length_fmap|].
  intros i h Hi. exists (asdict_fields h).
  rewrite list_lookup_fmap, Hi.
  destruct (asdict_fields_lookup h) as (? & ? & ? & ?).
  split_and!; [done|apply asdict_fields_dom|done..].
Qed.

(** C4, as stated, fails: completions stored out of order are written out
    of order. *)
Lemma store_from_habits_unsorted :
  let h := mkHabit "a1" "Run" "2024-01-01" ["2024-01-02"; "2024-01-01"] in
  store_from_habits [h] !! "habits"
  = Some (VList [VDict {[ "id" := VStr "a1"; "name" := VStr "Run";
                          "created_at" := VStr "2024-01-01";
                          "completions" := VList [VStr "2024-01-02"; VStr "2024-01-01"] ]}])
  ∧ ¬ Sorted Str.le ["2024-01-02"; "2024-01-01"]%string.
Proof.
  split; [by vm_compute|].
  intros Hs. inversion Hs as [|? ? _ Hhd]. inversion Hhd as [|? ? Hle]. by vm_compute in Hle.
Qed.

(** C5, as the code has it. For habits with a non-empty id and name,
    decoding the encoded list gives the same habits in the same order, each
    with its id, name, creation date and its completions in the order in
    which they are stored. *)
Theorem habits_from_store_store_from_habits (repr : value → string)
    (today : Date.date) (habits : list Habit) :
  Forall well_formed habits →
  habits_from_store repr today (store_from_habits habits) = Ok (as_decoded <$> habits).
Proof.
  intros Hwf. unfold habits_from_store, dict_get.
  rewrite (proj2 (store_from_habits_lookup habits)). cbn [py_iter mbind result_bind].
  rewrite habits_from_entries_asdict. cbn [mbind result_bind]. f_equal.
  induction Hwf as [|h habits [Hid Hname] _ IH]; [done|].
  cbn [fmap list_fmap]. rewrite filter_cons.
  rewrite decide_True; [by f_equal|].
  apply Is_true_true, andb_true_iff. by rewrite !truthy_true.
Qed.

Lemma habits_from_store_store_from_habits_witness :
  let habits := [mkHabit "a1" "Run" "2024-01-01" ["2024-01-01"; "2024-01-02"];
                 mkHabit "b2" "Read" "2024-01-03" []] in
  Forall well_formed habits
  ∧ habits_from_store (λ _, "None"%string) (Date.fromordinal 738886)
      (store_from_habits habits)
    = Ok (as_decoded <$> habits).
Proof.
  intros habits.
  assert (Hwf : Forall well_formed habits) by (repeat constructor; done).
  split; [exact Hwf|].
  exact (habits_from_store_store_from_habits _ _ habits Hwf).
Defined.

(** C5, as stated, fails: the round trip does not put completions in
    ascending order. *)
Lemma round_trip_unsorted :
  let h := mkHabit "a1" "Run" "2024-01-01" ["2024-01-02"; "2024-01-01"] in
  well_formed h
  ∧ habits_from_store (λ _, "None"%string) (Date.fromordinal 738886) (store_from_habits [h])
    = Ok [mkHabit "a1" "Run" "2024-01-01" [VStr "2024-01-02"; VStr "2024-01-01"]]
  ∧ ¬ Sorted Str.le ["2024-01-02"; "2024-01-01"]%string.
Proof.
  split; [done|]. split; [by vm_compute|].
  intros Hs. inversion Hs as [|? ? _ Hhd]. inversion Hhd as [|? ? Hle]. by vm_compute in Hle.
Qed.

(** What [habits_from_store] skips and fills in, as long as nothing
    raises. *)
Lemma habits_from_entries_skip (repr : value → string) (today : Date.date)
    (v : value) (rest : list value) :
  (∀ d, v ≠ VDict d) →
  habits_from_entries repr today (v :: rest) = habits_from_entries repr today rest.
Proof. intros Hv. destruct v; try done. by destruct (Hv d). Qed.

Lemma habit_of_record_defaults (repr : value → string) (today : Date.date) :
  habit_of_record repr today ∅ = Ok (mkHabit "" "" (today_iso today) []).
Proof. reflexivity. Qed.

Lemma habits_from_store_keeps_named (repr : value → string) (today : Date.date)
    (store : gmap string value) (habits : list (HabitOf value)) :
  habits_from_store repr today store = Ok habits →
  Forall (λ h, id h ≠ ""%string ∧ name h ≠ ""%string) habits.
Proof.
  unfold habits_from_store.
  destruct (py_iter _) as [entries|]; [|done]. cbn [mbind result_bind].
  destruct (habits_from_entries _ _ _) as [hs|]; [|done]. cbn [mbind result_bind].
  intros [= <-]. apply Forall_forall. intros h [Hh _]%list_elem_of_filter.
  apply Is_true_true, andb_true_iff in Hh. by rewrite !truthy_true in Hh.
Qed.

(** Nothing but [list(...)] on a record's [completions] can raise: when
    that value can be iterated in every record, the load succeeds. *)
Lemma habits_from_entries_total (repr : value → string) (today : Date.date)
    (entries : list value) :
  Forall (λ v, ∀ d, v = VDict d →
               ∃ l, py_iter (dict_get d "completions" (VList [])) = Ok l) entries →
  ∃ habits, habits_from_entries repr today entries = Ok habits.
Proof.
  induction 1 as [|v entries Hv _ [habits IH]]; [by exists []|].
  destruct v; cbn [habits_from_entries]; eauto.
  destruct (Hv d eq_refl) as [l Hl]. unfold habit_of_record. rewrite Hl, IH.
  cbn [mbind result_bind]. eauto.
Qed.

(** C3 at a record whose [completions] is [null]: [list(None)] raises
    TypeError and the whole load is lost with it. *)
Theorem habits_from_store_null_completions (repr : value → string) (today : Date.date) :
  habits_from_store repr today
    {[ "version" := VInt 1;
       "habits" := VList [VDict {[ "id" := VStr "a1"; "name" := VStr "Run";
                                   "created_at" := VStr "2024-01-01";
                                   "completions" := VNone ]}] ]}
  = Raise TypeError.
Proof. reflexivity. Qed.

(** ** Loading the store *)

Example utf8_decode_examples :
  utf8_decode (Byte.to_N <$> [x7b; x7d]) = Some [123; 125]%N
  ∧ utf8_decode (Byte.to_N <$> [xc3; xa9]) = Some [233]%N
  ∧ utf8_decode (Byte.to_N <$> [xe2; x82; xac]) = Some [8364]%N
  ∧ utf8_decode (Byte.to_N <$> [xff]) = None
  ∧ utf8_decode (Byte.to_N <$> [xc3]) = None
  ∧ utf8_decode (Byte.to_N <$> [xc0; x80]) = None
  ∧ utf8_decode (Byte.to_N <$> [xed; xa0; x80]) = None.
Proof. by vm_compute. Qed.

Lemma load_store_missing (json_loads : list N → option value) (w : world) :
  makedirs_ok w = true → data_file w = None →
  load_store json_loads w = (Ok default_store, w).
Proof.
  intros Hm Hd. unfold load_store, mbind, io_bind, ensure_data_dir, stat_data_file.
  by rewrite Hm, Hd.
Qed.

(** A file that cannot be opened or read, or whose text is not JSON, is
    moved to the backup path when the move succeeds, and left in place when
    it does not; either way the fresh document is returned. *)
Lemma load_store_unparsable (json_loads : list N → option value) (w : world)
    (content : list byte) :
  makedirs_ok w = true → data_file w = Some content →
  (data_readable w = false
   ∨ ∃ text, utf8_decode (Byte.to_N <$> content) = Some text ∧ json_loads text = None) →
  load_store json_loads w
  = (Ok default_store,
     if replace_ok w then
       write_stdout "Warning: data file was corrupted. Backed up to data/habits.json.bak"
         (mkWorld (stdin w) (stdout w) (makedirs_ok w) None
                  (data_readable w) (replace_ok w) (Some content))
     else w).
Proof.
  destruct w as [inp out mk df dr ro bf]. cbn. intros -> -> Hbad.
  unfold load_store, mbind, io_bind, ensure_data_dir, stat_data_file.
  cbn [makedirs_ok data_file].
  unfold try_except, json_load_data, backup_data_file, try_except, mbind, io_bind,
    os_replace_backup, print, mret, io_ret.
  cbn [data_readable replace_ok].
  destruct Hbad as [->|(text & Hu & Hj)].
  - cbn. by destruct ro.
  - rewrite Hu, Hj. destruct dr; cbn; by destruct ro.
Qed.

(** Bytes that are not UTF-8 make [json.load] raise UnicodeDecodeError,
    which the [except] clause does not name. *)
Lemma load_store_undecodable (json_loads : list N → option value) (w : world)
    (content : list byte) :
  makedirs_ok w = true → data_file w = Some content → data_readable w = true →
  utf8_decode (Byte.to_N <$> content) = None →
  load_store json_loads w = (Raise UnicodeDecodeError, w).
Proof.
  intros Hm Hd Hr Hu.
  unfold load_store, mbind, io_bind, ensure_data_dir, stat_data_file. rewrite Hm, Hd.
  unfold try_except, json_load_data, mbind, io_bind. by rewrite Hr, Hu.
Qed.

(** C2 at a data file that holds the single byte 0xFF: [load_store] raises
    UnicodeDecodeError; no backup is made and no document is returned. *)
Theorem load_store_invalid_utf8 (json_loads : list N → option value)
    (stdin stdout : list string) (replace_ok : bool) (backup : option (list byte)) :
  let w := mkWorld stdin stdout true (Some [xff]) true replace_ok backup in
  load_store json_loads w = (Raise UnicodeDecodeError, w).
Proof. intros w. by apply (load_store_undecodable json_loads w [xff]). Qed.

(** ** Streaks *)

Lemma streak_loop_more_fuel (fuel extra : nat) (completed : gset string)
    (day : Date.date) (streak : Z) (r : result Z) :
  streak_loop fuel completed day streak = Some r →
  streak_loop (fuel + extra) completed day streak = Some r.
Proof.
  revert day streak. induction fuel as [|fuel IH]; intros day streak; [done|].
  cbn [streak_loop Nat.add]. case_bool_decide; [|done].
  destruct (Date.sub_days day 1); [apply IH|done].
Qed.

Lemma streak_loop_spec (fuel : nat) (completed : gset string) (o streak : Z) :
  1 ≤ o ≤ Date.MAXORDINAL → (Z.to_nat o ≤ fuel)%nat →
  (∃ n, 0 ≤ n < o
        ∧ (∀ i, 0 ≤ i < n → Date.isoformat (Date.fromordinal (o - i)) ∈ completed)
        ∧ (Date.isoformat (Date.fromordinal (o - n)) ∉ completed)
        ∧ streak_loop fuel completed (Date.fromordinal o) streak = Some (Ok (streak + n)))
  ∨ ((∀ k, 1 ≤ k ≤ o → Date.isoformat (Date.fromordinal k) ∈ completed)
     ∧ streak_loop fuel completed (Date.fromordinal o) streak = Some (Raise OverflowError)).
Proof.
  revert o streak. induction fuel as [|fuel IH]; intros o streak Ho Hfuel; [lia|].
  cbn [streak_loop]. case_bool_decide as Hin.
  - unfold Date.sub_days. cbn [Date.toordinal].
    destruct (Z.ltb_spec 0 (o - 1)) as [Hpos|Hone]; cbn [andb].
    + destruct (Z.leb_spec (o - 1) Date.MAXORDINAL) as [_|?]; [|lia].
      destruct (IH (o - 1) (streak + 1) ltac:(lia) ltac:(lia))
        as [(n & Hn & Hall & Hstop & Hrun)|[Hall Hrun]].
      * left. exists (n + 1). split; [lia|]. split_and!.
        -- intros i Hi. destruct (decide (i = 0)) as [->|Hne].
           ++ by rewrite Z.sub_0_r.
           ++ replace (o - i) with (o - 1 - (i - 1)) by lia. apply Hall. lia.
        -- by replace (o - (n + 1)) with (o - 1 - n) by lia.
        -- rewrite Hrun. do 2 f_equal. lia.
      * right. split; [|done]. intros k Hk.
        destruct (decide (k = o)) as [->|Hne]; [done|]. apply Hall. lia.
    + right. split; [|done]. intros k Hk. by replace k with o by lia.
  - left. exists 0. rewrite Z.sub_0_r, Z.add_0_r. split_and!; try done; lia.
Qed.

Lemma isoformat_day_before_ne (ref : Date.date) (i j : Z) :
  Date.valid ref → 0 ≤ i < Date.toordinal ref → 0 ≤ j < Date.toordinal ref → i ≠ j →
  Date.isoformat (day_before ref i) ≠ Date.isoformat (day_before ref j).
Proof.
  intros Hv Hi Hj Hne Heq. unfold Date.valid in Hv.
  apply DateFacts.isoformat_inj in Heq.
  - unfold day_before in Heq. injection Heq. lia.
  - unfold Date.valid, day_before. simpl. lia.
  - unfold Date.valid, day_before. simpl. lia.
Qed.

(** The fuel [current_streak] gives its loop is enough, and more fuel
    changes nothing. *)
Lemma current_streak_fuel_enough (today : Date.date) (h : Habit)
    (ref : option Date.date) (extra : nat) :
  Date.valid (default today ref) →
  current_streak today h ref ≠ None
  ∧ current_streak_fuel today
      (S (Z.to_nat (Date.toordinal (default today ref))) + extra) h ref
    = current_streak today h ref.
Proof.
  intros Hv. unfold current_streak, current_streak_fuel.
  set (r := default today ref) in *. unfold Date.valid in Hv.
  case_bool_decide; [done|].
  assert (Hloop : ∀ start, Date.toordinal start ≤ Date.toordinal r →
            1 ≤ Date.toordinal start →
            ∃ x, streak_loop (S (Z.to_nat (Date.toordinal r))) (completion_set h) start 0
                 = Some x).
  { intros [o] Ho1 Ho2. cbn [Date.toordinal] in *.
    destruct (streak_loop_spec (S (Z.to_nat (Date.toordinal r))) (completion_set h) o 0)
      as [(n & _ & _ & _ & Hrun)|[_ Hrun]]; [lia|lia|eauto..]. }
  case_bool_decide.
  - destruct (Hloop r) as [x Hx]; [lia..|]. rewrite Hx.
    split; [done|]. by apply streak_loop_more_fuel.
  - destruct (Date.sub_days r 1) as [start|e] eqn:Hs; [|done].
    apply DateFacts.sub_days_Ok in Hs as [Hs1 Hs2].
    destruct (Hloop start) as [x Hx]; [lia..|]. rewrite Hx.
    split; [done|]. by apply streak_loop_more_fuel.
Qed.

Lemma current_streak_Some (today : Date.date) (h : Habit) (ref : Date.date) :
  current_streak today h (Some ref)
  = if bool_decide (completion_set h = ∅) then Some (Ok 0)
    else
      match (if bool_decide (Date.isoformat ref ∈ completion_set h) then Ok ref
             else Date.sub_days ref 1) with
      | Raise e => Some (Raise e)
      | Ok start =>
          streak_loop (S (Z.to_nat (Date.toordinal ref))) (completion_set h) start 0
      end.
Proof. reflexivity. Qed.

(** What [current_streak] returns, by the two ways its walk can end. *)
Lemma current_streak_cases (today : Date.date) (h : Habit) (ref : Date.date) :
  Date.valid ref →
  let start := streak_start h ref in
  (completion_set h = ∅ ∧ current_streak today h (Some ref) = Some (Ok 0))
  ∨ (completion_set h ≠ ∅ ∧
     ((∃ n, 0 ≤ n < Date.toordinal start
            ∧ (∀ i, 0 ≤ i < n → completed_on h (day_before start i))
            ∧ ¬ completed_on h (day_before start n)
            ∧ current_streak today h (Some ref) = Some (Ok n))
      ∨ ((∀ k, 1 ≤ k ≤ Date.toordinal start → completed_on h (Date.fromordinal k))
         ∧ current_streak today h (Some ref) = Some (Raise OverflowError)))).
Proof.
  intros Hv start.
  rewrite current_streak_Some.
  case_bool_decide as Hempty; [by left|]. right. split; [done|].
  subst start. unfold streak_start, is_completed_on, completed_on, Date.valid in *.
  destruct ref as [o]. cbn [Date.toordinal] in *.
  case_bool_decide as Href.
  - destruct (streak_loop_spec (S (Z.to_nat o)) (completion_set h) o 0)
      as [(n & Hn & Hall & Hstop & Hrun)|[Hall Hrun]]; [lia|lia|..].
    + left. exists n. by rewrite Z.add_0_l in Hrun.
    + by right.
  - unfold Date.sub_days, day_before. cbn [Date.toordinal].
    destruct (Z.ltb_spec 0 (o - 1)) as [Hpos|Hone]; cbn [andb].
    + destruct (Z.leb_spec (o - 1) Date.MAXORDINAL) as [_|?]; [|lia].
      destruct (streak_loop_spec (S (Z.to_nat o)) (completion_set h) (o - 1) 0)
        as [(n & Hn & Hall & Hstop & Hrun)|[Hall Hrun]]; [lia|lia|..].
      * left. exists n. by rewrite Z.add_0_l in Hrun.
      * by right.
    + right. split; [|done]. intros k Hk. lia.
Qed.

Lemma current_streak_counts (today : Date.date) (h : Habit) (ref : Date.date) :
  Date.valid ref →
  let start := streak_start h ref in
  (completion_set h = ∅
   ∨ ∃ k, 1 ≤ k ≤ Date.toordinal start ∧ ¬ completed_on h (Date.fromordinal k)) →
  ∃ n, current_streak today h (Some ref) = Some (Ok n)
       ∧ 0 ≤ n
       ∧ (∀ i, 0 ≤ i < n → completed_on h (day_before start i))
       ∧ ¬ completed_on h (day_before start n)
       ∧ (completion_set h = ∅ ∨ ¬ completed_on h start → n = 0).
Proof.
  intros Hv start Hgap. subst start.
  destruct (current_streak_cases today h ref Hv)
    as [[Hempty Hrun]|[Hne [(n & Hn & Hall & Hstop & Hrun)|[Hall Hrun]]]].
  - exists 0. split_and!; try done.
    + intros i Hi. lia.
    + unfold completed_on. rewrite Hempty. set_solver.
  - exists n. split_and!; try done; [lia|].
    intros [Hempty|Hstart]; [done|].
    destruct (decide (n = 0)) as [|Hn0]; [done|]. exfalso. apply Hstart.
    specialize (Hall 0 ltac:(lia)). unfold day_before in Hall.
    rewrite Z.sub_0_r in Hall. by destruct (streak_start h ref).
  - destruct Hgap as [Hempty|(k & Hk & Hnot)]; [done|]. destruct Hnot. by apply Hall.
Qed.

Lemma current_streak_overflow (today : Date.date) (h : Habit) (ref : Date.date) :
  Date.valid ref →
  completion_set h ≠ ∅ →
  (∀ k, 1 ≤ k ≤ Date.toordinal (streak_start h ref) → completed_on h (Date.fromordinal k)) →
  current_streak today h (Some ref) = Some (Raise OverflowError).
Proof.
  intros Hv Hne Hall.
  destruct (current_streak_cases today h ref Hv)
    as [[Hempty _]|[_ [(n & Hn & _ & Hstop & _)|[_ Hrun]]]]; [done| |done].
  destruct Hstop. unfold day_before. apply Hall. lia.
Qed.

(** A count is fixed by its two properties. *)
Lemma streak_count_unique (C : Z → Prop) (n m : Z) :
  0 ≤ n → 0 ≤ m →
  (∀ i, 0 ≤ i < n → C i) → ¬ C n → (∀ i, 0 ≤ i < m → C i) → ¬ C m → n = m.
Proof.
  intros Hn Hm Hall Hstop Hall' Hstop'.
  destruct (Z.lt_trichotomy n m) as [Hlt|[Heq|Hgt]]; [|done|].
  - destruct Hstop. apply Hall'. lia.
  - destruct Hstop'. apply Hall. lia.
Qed.

Lemma day_before_0 (ref : Date.date) : day_before ref 0 = ref.
Proof. destruct ref as [o]. unfold day_before. cbn. f_equal. lia. Qed.

Lemma day_before_day_before (ref : Date.date) (i j : Z) :
  day_before (day_before ref i) j = day_before ref (i + j).
Proof. unfold day_before. cbn. f_equal. lia. Qed.

Lemma current_streak_three_days (today : Date.date) (h : Habit) (ref : Date.date) :
  Date.valid ref → 4 ≤ Date.toordinal ref →
  completion_set h = {[ Date.isoformat ref; Date.isoformat (day_before ref 1);
                        Date.isoformat (day_before ref 2) ]} →
  current_streak today h (Some ref) = Some (Ok 3).
Proof.
  intros Hv Hord Hset.
  pose proof (isoformat_day_before_ne ref 3 0 Hv ltac:(lia) ltac:(lia) ltac:(lia)) as N0.
  pose proof (isoformat_day_before_ne ref 3 1 Hv ltac:(lia) ltac:(lia) ltac:(lia)) as N1.
  pose proof (isoformat_day_before_ne ref 3 2 Hv ltac:(lia) ltac:(lia) ltac:(lia)) as N2.
  rewrite day_before_0 in N0.
  assert (Hstart : streak_start h ref = ref).
  { unfold streak_start. rewrite (proj2 (is_completed_on_true h _)); [done|].
    rewrite Hset. set_solver. }
  assert (Hstop3 : ¬ completed_on h (day_before ref 3)).
  { unfold completed_on. rewrite Hset. set_solver. }
  destruct (current_streak_counts today h ref Hv) as (n & Hrun & Hn & Hall & Hstop & _).
  { right. exists (Date.toordinal ref - 3). rewrite Hstart. split; [lia|done]. }
  rewrite Hstart in Hall, Hstop. rewrite Hrun. do 2 f_equal.
  apply (streak_count_unique (λ i, completed_on h (day_before ref i))); try done.
  intros i Hi. unfold completed_on. rewrite Hset.
  assert (i = 0 ∨ i = 1 ∨ i = 2) as [-> | [-> | ->]] by lia;
    rewrite ?day_before_0; set_solver.
Qed.

Lemma current_streak_gap (today : Date.date) (h : Habit) (ref : Date.date) :
  Date.valid ref → 3 ≤ Date.toordinal ref →
  completion_set h = {[ Date.isoformat (day_before ref 2) ]} →
  current_streak today h (Some ref) = Some (Ok 0).
Proof.
  intros Hv Hord Hset.
  pose proof (isoformat_day_before_ne ref 0 2 Hv ltac:(lia) ltac:(lia) ltac:(lia)) as N0.
  pose proof (isoformat_day_before_ne ref 1 2 Hv ltac:(lia) ltac:(lia) ltac:(lia)) as N1.
  rewrite day_before_0 in N0.
  assert (Hstart : streak_start h ref = day_before ref 1).
  { unfold streak_start. rewrite (proj2 (is_completed_on_false h _)); [done|].
    rewrite Hset. set_solver. }
  assert (Hstop1 : ¬ completed_on h (day_before ref 1)).
  { unfold completed_on. rewrite Hset. set_solver. }
  destruct (current_streak_counts today h ref Hv) as (n & Hrun & Hn & Hall & Hstop & Hzero).
  { right. exists (Date.toordinal ref - 1). rewrite Hstart. cbn. split; [lia|done]. }
  rewrite Hrun, Hzero; [done|]. right. by rewrite Hstart.
Qed.

Lemma current_streak_yesterday (today : Date.date) (h : Habit) (ref : Date.date) :
  Date.valid ref → 3 ≤ Date.toordinal ref →
  completion_set h = {[ Date.isoformat (day_before ref 1) ]} →
  current_streak today h (Some ref) = Some (Ok 1).
Proof.
  intros Hv Hord Hset.
  pose proof (isoformat_day_before_ne ref 0 1 Hv ltac:(lia) ltac:(lia) ltac:(lia)) as N0.
  pose proof (isoformat_day_before_ne ref 2 1 Hv ltac:(lia) ltac:(lia) ltac:(lia)) as N2.
  rewrite day_before_0 in N0.
  assert (Hstart : streak_start h ref = day_before ref 1).
  { unfold streak_start. rewrite (proj2 (is_completed_on_false h _)); [done|].
    rewrite Hset. set_solver. }
  assert (Hstop2 : ¬ completed_on h (day_before ref 2)).
  { unfold completed_on. rewrite Hset. set_solver. }
  destruct (current_streak_counts today h ref Hv) as (n & Hrun & Hn & Hall & Hstop & _).
  { right. exists (Date.toordinal ref - 2). rewrite Hstart. cbn. split; [lia|done]. }
  rewrite Hstart in Hall, Hstop. rewrite Hrun. do 2 f_equal.
  apply (streak_count_unique (λ i, completed_on h (day_before (day_before ref 1) i)));
    try done.
  - intros i Hi. replace i with 0 by lia. rewrite day_before_0.
    unfold completed_on. rewrite Hset. set_solver.
  - by rewrite day_before_day_before.
Qed.

Lemma current_streak_default (today : Date.date) (h : Habit) :
  current_streak today h None = current_streak today h (Some today).
Proof. reflexivity. Qed.

(** C1, as the code has it. For a reference date [ref] the count starts
    from [ref] when [ref] is completed and from the day before otherwise.
    - When the completion set is empty, or some day from 0001-01-01 up to
      the starting day is not completed, [current_streak] returns the number
      [n] of completed days met walking back from the starting day up to the
      first gap; [n] is 0 when the set is empty or the starting day is not
      completed.
    - When the set is not empty and every day from 0001-01-01 up to the
      starting day is completed, the walk steps before [date.min] and
      OverflowError is raised.
    - With exactly the reference date and the two days before it completed
      the result is 3, from 0001-01-04 on; with only the day two days
      before it is 0, and with only the day before it is 1, from
      0001-01-03 on. *)
Theorem current_streak_spec (today : Date.date) (h : Habit) (ref : Date.date) :
  Date.valid ref →
  let start := streak_start h ref in
  ((completion_set h = ∅
    ∨ ∃ k, 1 ≤ k ≤ Date.toordinal start ∧ ¬ completed_on h (Date.fromordinal k)) →
   ∃ n, current_streak today h (Some ref) = Some (Ok n)
        ∧ 0 ≤ n
        ∧ (∀ i, 0 ≤ i < n → completed_on h (day_before start i))
        ∧ ¬ completed_on h (day_before start n)
        ∧ (completion_set h = ∅ ∨ ¬ completed_on h start → n = 0))
  ∧ (completion_set h ≠ ∅ →
     (∀ k, 1 ≤ k ≤ Date.toordinal start → completed_on h (Date.fromordinal k)) →
     current_streak today h (Some ref) = Some (Raise OverflowError))
  ∧ (4 ≤ Date.toordinal ref →
     completion_set h = {[ Date.isoformat ref; Date.isoformat (day_before ref 1);
                           Date.isoformat (day_before ref 2) ]} →
     current_streak today h (Some ref) = Some (Ok 3))
  ∧ (3 ≤ Date.toordinal ref →
     completion_set h = {[ Date.isoformat (day_before ref 2) ]} →
     current_streak today h (Some ref) = Some (Ok 0))
  ∧ (3 ≤ Date.toordinal ref →
     completion_set h = {[ Date.isoformat (day_before ref 1) ]} →
     current_streak today h (Some ref) = Some (Ok 1)).
Proof.
  intros Hv start. split_and!.
  - by apply current_streak_counts.
  - by apply current_streak_overflow.
  - by apply current_streak_three_days.
  - by apply current_streak_gap.
  - by apply current_streak_yesterday.
Qed.

Lemma current_streak_spec_witness :
  let h := mkHabit "a1" "Run" "2024-01-01" ["2024-02-28"; "2024-02-29"; "2024-03-01"] in
  let ref := Date.fromordinal 738946 in
  Date.valid ref ∧ current_streak ref h (Some ref) = Some (Ok 3).
Proof.
  intros h ref.
  assert (Hv : Date.valid ref) by (unfold Date.valid, Date.MAXORDINAL; simpl; lia).
  split; [exact Hv|].
  destruct (current_streak_spec ref h ref Hv) as (_ & _ & Hthree & _ & _).
  apply Hthree; [simpl; lia|]. vm_compute. reflexivity.
Defined.

(** C1, as stated, fails: on 0001-01-03, with that day and the two days
    before it completed, the walk steps before [date.min] and the call
    raises instead of returning 3. *)
Lemma current_streak_overflows_at_date_min :
  let h := mkHabit "a1" "Run" "0001-01-01" ["0001-01-01"; "0001-01-02"; "0001-01-03"] in
  let today := Date.fromordinal 3 in
  Date.valid today
  ∧ completion_set h = {[ Date.isoformat today; Date.isoformat (day_before today 1);
                          Date.isoformat (day_before today 2) ]}
  ∧ current_streak today h (Some today) = Some (Raise OverflowError).
Proof.
  split; [unfold Date.valid, Date.MAXORDINAL; simpl; lia|].
  split; by vm_compute.
Qed.

Example current_streak_examples :
  let today := Date.fromordinal 738946 in
  Date.isoformat today = "2024-03-01"%string
  ∧ current_streak today
      (mkHabit "a1" "Run" "2024-01-01" ["2024-03-01"; "2024-02-29"; "2024-02-28"]) None
    = Some (Ok 3)
  ∧ current_streak today (mkHabit "a1" "Run" "2024-01-01" ["2024-02-28"]) None
    = Some (Ok 0)
  ∧ current_streak today (mkHabit "a1" "Run" "2024-01-01" ["2024-02-29"]) None
    = Some (Ok 1)
  ∧ current_streak today (mkHabit "a1" "Run" "2024-01-01" []) None = Some (Ok 0).
Proof. by vm_compute. Qed.

(** ** The weekly summary *)

Lemma sub_days_day_before (ref : Date.date) (i : Z) :
  1 ≤ Date.toordinal ref - i ≤ Date.MAXORDINAL →
  Date.sub_days ref i = Ok (day_before ref i).
Proof. intros Hi. by apply DateFacts.sub_days_Ok. Qed.

Lemma sub_days_before_min (ref : Date.date) (i : Z) :
  Date.toordinal ref - i < 1 → Date.sub_days ref i = Raise OverflowError.
Proof.
  intros Hi. unfold Date.sub_days.
  destruct (Z.ltb_spec 0 (Date.toordinal ref - i)); [lia|done].
Qed.

Lemma py_sum_ones {A} (l : list A) : py_sum ((λ _, 1) <$> l) = Z.of_nat (length l).
Proof.
  induction l as [|x l IH]; [done|].
  rewrite fmap_cons. unfold py_sum in *. cbn [foldr length]. rewrite IH. lia.
Qed.

Lemma week_days_NoDup (ref : Date.date) :
  Date.valid ref → 7 ≤ Date.toordinal ref → NoDup (week_days ref).
Proof.
  intros Hv Hord. unfold week_days. apply NoDup_fmap_2_strong.
  - intros i j Hi Hj Heq. unfold range in Hi, Hj.
    apply list_elem_of_fmap in Hi as (a & -> & Ha%elem_of_seq).
    apply list_elem_of_fmap in Hj as (b & -> & Hb%elem_of_seq).
    destruct (decide (Z.of_nat a = Z.of_nat b)) as [|Hne]; [done|].
    by destruct (isoformat_day_before_ne ref (Z.of_nat a) (Z.of_nat b) Hv
                   ltac:(lia) ltac:(lia) Hne).
  - unfold range. apply NoDup_fmap_2; [apply Nat2Z.inj'|apply NoDup_seq].
Qed.

Lemma weekly_summary_Some (today : Date.date) (h : Habit) (ref : Date.date) :
  Date.valid ref → 7 ≤ Date.toordinal ref →
  weekly_summary today h (Some ref)
  = Ok (Z.of_nat (length (filter (λ d, d ∈ completion_set h) (week_days ref)))).
Proof.
  intros Hv Hord. unfold weekly_summary, week_days, range. cbn [default].
  unfold Date.valid in Hv.
  cbn [seq fmap list_fmap comprehension].
  rewrite !sub_days_day_before by (cbn; lia).
  cbn [mbind result_bind]. by rewrite py_sum_ones.
Qed.

Lemma weekly_summary_count (today : Date.date) (h : Habit) (ref : Date.date) :
  Date.valid ref → 7 ≤ Date.toordinal ref →
  weekly_summary today h (Some ref) = Ok (Z.of_nat (size (completions_in_week h ref))).
Proof.
  intros Hv Hord. rewrite weekly_summary_Some by done. do 2 f_equal.
  rewrite <- (size_list_to_set (C := gset string))
    by (apply NoDup_filter, week_days_NoDup; done).
  f_equal. unfold completions_in_week. apply set_eq. intros d.
  rewrite elem_of_list_to_set, list_elem_of_filter, elem_of_filter. tauto.
Qed.

Lemma weekly_summary_default (today : Date.date) (h : Habit) :
  weekly_summary today h None = weekly_summary today h (Some today).
Proof. reflexivity. Qed.

(** Before 0001-01-07 the week reaches before [date.min]. *)
Lemma weekly_summary_first_week (today : Date.date) (h : Habit) (ref : Date.date) :
  Date.valid ref → Date.toordinal ref < 7 →
  weekly_summary today h (Some ref) = Raise OverflowError.
Proof.
  intros [Hlo _] Hhi. destruct ref as [o]. cbn [Date.toordinal] in *.
  unfold weekly_summary. change (default today (Some (Date.fromordinal o)))
    with (Date.fromordinal o).
  assert (Hdays : comprehension
            (λ i, d ← Date.sub_days (Date.fromordinal o) i; Ok (Date.isoformat d))
            (range 7) = Raise OverflowError).
  { assert (o = 1 ∨ o = 2 ∨ o = 3 ∨ o = 4 ∨ o = 5 ∨ o = 6)
      as [-> | [-> | [-> | [-> | [-> | ->]]]]] by lia; by vm_compute. }
  by rewrite Hdays.
Qed.

(** C8, as the code has it. For a reference date from 0001-01-07 on,
    [weekly_summary] returns the number of dates of the completion set that
    fall among the 7 days ending at the reference date; the order in which
    the completions are stored does not matter; a completion set made of 3
    of those days gives 3; and, from 0001-01-09 on, a completion 8 days
    before the reference date does not count. *)
Theorem weekly_summary_spec (today : Date.date) (h : Habit) (ref : Date.date) :
  Date.valid ref → 7 ≤ Date.toordinal ref →
  weekly_summary today h (Some ref) = Ok (Z.of_nat (size (completions_in_week h ref)))
  ∧ (∀ h' : Habit, completions h' ≡ₚ completions h →
       weekly_summary today h' (Some ref) = weekly_summary today h (Some ref))
  ∧ (completion_set h ⊆ list_to_set (week_days ref) → size (completion_set h) = 3%nat →
       weekly_summary today h (Some ref) = Ok 3)
  ∧ (9 ≤ Date.toordinal ref →
     ∀ h' : Habit,
       completion_set h' = {[ Date.isoformat (day_before ref 8) ]} ∪ completion_set h →
       weekly_summary today h' (Some ref) = weekly_summary today h (Some ref)).
Proof.
  intros Hv Hord. split_and!.
  - by apply weekly_summary_count.
  - intros h' Hperm. rewrite !weekly_summary_count by done.
    unfold completions_in_week, completion_set.
    by rewrite (list_to_set_perm_L (C := gset string) _ _ Hperm).
  - intros Hsub Hsize. rewrite weekly_summary_count by done.
    replace (completions_in_week h ref) with (completion_set h); [by rewrite Hsize|].
    unfold completions_in_week. apply set_eq. intros d. rewrite elem_of_filter.
    split; [|tauto]. intros Hd. split; [|done].
    apply Hsub in Hd. by apply elem_of_list_to_set in Hd.
  - intros Hord9 h' Hset. rewrite !weekly_summary_count by done.
    do 3 f_equal. unfold completions_in_week. rewrite Hset.
    apply set_eq. intros d. rewrite !elem_of_filter, elem_of_union, elem_of_singleton.
    split; [|tauto]. intros [Hweek [->|Hd]]; [|done]. exfalso.
    unfold week_days, range in Hweek.
    apply list_elem_of_fmap in Hweek as (i & Heq & Hi).
    apply list_elem_of_fmap in Hi as (a & -> & Ha%elem_of_seq).
    by destruct (isoformat_day_before_ne ref 8 (Z.of_nat a) Hv
                   ltac:(lia) ltac:(lia) ltac:(lia)).
Qed.

Lemma weekly_summary_spec_witness :
  let h := mkHabit "a1" "Run" "2024-01-01"
             ["2024-03-01"; "2024-02-24"; "2024-02-27"; "2024-02-23"] in
  let ref := Date.fromordinal 738946 in
  Date.valid ref ∧ 7 ≤ Date.toordinal ref
  ∧ weekly_summary ref h (Some ref) = Ok (Z.of_nat (size (completions_in_week h ref)))
  ∧ size (completions_in_week h ref) = 3%nat.
Proof.
  intros h ref.
  assert (Hv : Date.valid ref) by (unfold Date.valid, Date.MAXORDINAL; simpl; lia).
  assert (Hord : 7 ≤ Date.toordinal ref) by (simpl; lia).
  split; [exact Hv|]. split; [exact Hord|]. split.
  - exact (proj1 (weekly_summary_spec ref h ref Hv Hord)).
  - vm_compute. reflexivity.
Defined.

(** C8, as stated, fails: on 0001-01-03 the week reaches before
    [date.min], and the call raises although the reference date is
    completed. *)
Lemma weekly_summary_overflows_at_date_min :
  let h := mkHabit "a1" "Run" "0001-01-01" ["0001-01-03"; "0001-01-01"] in
  let ref := Date.fromordinal 3 in
  Date.valid ref
  ∧ is_completed_on h (Date.isoformat ref) = true
  ∧ weekly_summary ref h (Some ref) = Raise OverflowError.
Proof.
  split; [unfold Date.valid, Date.MAXORDINAL; simpl; lia|].
  split; by vm_compute.
Qed.

(** C10, as the code has it. For a reference date from 0001-01-07 on,
    [weekly_summary] returns an integer from 0 to 7, whatever the order and
    the repetitions of the stored completions. *)
Theorem weekly_summary_bounds (today : Date.date) (h : Habit) (ref : Date.date) :
  Date.valid ref → 7 ≤ Date.toordinal ref →
  ∃ n, weekly_summary today h (Some ref) = Ok n ∧ 0 ≤ n ≤ 7.
Proof.
  intros Hv Hord. rewrite weekly_summary_Some by done.
  eexists. split; [done|].
  pose proof (length_filter (λ d, d ∈ completion_set h) (week_days ref)) as Hle.
  change (length (week_days ref)) with 7%nat in Hle. lia.
Qed.

Lemma weekly_summary_bounds_witness :
  let h := mkHabit "a1" "Run" "2024-01-01"
             ["2024-03-01"; "2024-02-24"; "2024-03-01"; "2024-02-27"] in
  let ref := Date.fromordinal 738946 in
  Date.valid ref ∧ 7 ≤ Date.toordinal ref
  ∧ ∃ n, weekly_summary ref h (Some ref) = Ok n ∧ 0 ≤ n ≤ 7.
Proof.
  intros h ref.
  assert (Hv : Date.valid ref) by (unfold Date.valid, Date.MAXORDINAL; simpl; lia).
  assert (Hord : 7 ≤ Date.toordinal ref) by (simpl; lia).
  split; [exact Hv|]. split; [exact Hord|].
  exact (weekly_summary_bounds ref h ref Hv Hord).
Defined.

(** C10, as stated, fails: on 0001-01-06, with completions stored out of
    order and twice, the call raises and returns no integer. *)
Lemma weekly_summary_no_integer_at_date_min :
  let h := mkHabit "a1" "Run" "0001-01-01" ["0001-01-06"; "0001-01-02"; "0001-01-06"] in
  let ref := Date.fromordinal 6 in
  Date.valid ref
  ∧ weekly_summary ref h (Some ref) = Raise OverflowError
  ∧ ∀ n, weekly_summary ref h (Some ref) ≠ Ok n.
Proof.
  split; [unfold Date.valid, Date.MAXORDINAL; simpl; lia|].
  split; [by vm_compute|]. intros n. by vm_compute.
Qed.

Example weekly_summary_examples :
  let today := Date.fromordinal 738946 in
  weekly_summary today
    (mkHabit "a1" "Run" "2024-01-01" ["2024-03-01"; "2024-02-24"; "2024-02-27"]) None
  = Ok 3
  ∧ weekly_summary today
      (mkHabit "a1" "Run" "2024-01-01"
               ["2024-03-01"; "2024-02-22"; "2024-02-24"; "2024-02-27"; "2024-02-24"]) None
    = Ok 3.
Proof. by vm_compute. Qed.

(** * Further properties *)

(** ** More on the habit entity *)

Lemma sorted_canonical (s : gset string) : canonical (Str.sorted s).
Proof. split; [apply StrFacts.sorted_NoDup | apply StrFacts.sorted_Sorted]. Qed.

(** [sorted(set(l))] is [l] itself when [l] is already in stored form. *)
Lemma sorted_list_to_set (l : list string) :
  canonical l → Str.sorted (list_to_set l) = l.
Proof.
  intros [Hnd Hs]. apply (Sorted_unique Str.le); [apply StrFacts.sorted_Sorted|done|].
  rewrite StrFacts.sorted_Permutation. by apply elements_list_to_set.
Qed.

(** X1. Both mutators keep the stored form: whenever they change the
    list it comes out without duplicates and ascending, and a list that was
    in that form stays in it whatever they return. *)
Theorem mutators_keep_canonical (h : Habit) (d : string) :
  ((mark_complete h d).1 = true → canonical (completions (mark_complete h d).2))
  ∧ ((unmark_complete h d).1 = true → canonical (completions (unmark_complete h d).2))
  ∧ (canonical (completions h) →
     canonical (completions (mark_complete h d).2)
     ∧ canonical (completions (unmark_complete h d).2)).
Proof.
  unfold mark_complete, unmark_complete.
  case_bool_decide as Hin; cbn [negb fst snd completions];
    split_and!; try done; intros; try split; try done; apply sorted_canonical.
Qed.

(** X2. On a habit in stored form, marking a date that was not completed
    and then unmarking it gives back the habit exactly, and so does
    unmarking a completed date and marking it again. *)
Theorem mark_unmark_round_trip (h : Habit) (d : string) :
  canonical (completions h) →
  (is_completed_on h d = false →
   unmark_complete (mark_complete h d).2 d = (true, h))
  ∧ (is_completed_on h d = true →
     mark_complete (unmark_complete h d).2 d = (true, h)).
Proof.
  intros Hc. assert (Hback : ∀ s, s = completion_set h →
    mkHabit (id h) (name h) (created_at h) (Str.sorted s) = h).
  { intros s ->. unfold completion_set. rewrite sorted_list_to_set by done.
    by destruct h. }
  split.
  - intros Hd%is_completed_on_false.
    pose proof (completion_set_mark h d) as Hset.
    unfold unmark_complete. rewrite Hset.
    rewrite bool_decide_eq_true_2 by set_solver. cbn [negb].
    unfold mark_complete. rewrite bool_decide_eq_false_2 by done.
    cbn [snd id name created_at]. f_equal. apply Hback. set_solver.
  - intros Hd%is_completed_on_true.
    pose proof (completion_set_unmark h d) as Hset.
    unfold mark_complete. rewrite Hset.
    rewrite bool_decide_eq_false_2 by set_solver.
    unfold unmark_complete. rewrite bool_decide_eq_true_2 by done.
    cbn [negb snd id name created_at]. f_equal. apply Hback.
    apply set_eq. intros x. rewrite elem_of_union, elem_of_difference, elem_of_singleton.
    destruct (decide (x = d)) as [->|]; naive_solver.
Qed.

Lemma mark_unmark_round_trip_witness :
  let h := mkHabit "a1" "Run" "2024-01-01" ["2024-02-28"; "2024-03-01"] in
  canonical (completions h)
  ∧ unmark_complete (mark_complete h "2024-02-29").2 "2024-02-29" = (true, h)
  ∧ mark_complete (unmark_complete h "2024-03-01").2 "2024-03-01" = (true, h).
Proof.
  intros h.
  assert (Hc : canonical (completions h)).
  { split.
    - apply (bool_decide_unpack _). by vm_compute.
    - apply (bool_decide_unpack _). by vm_compute. }
  split; [exact Hc|].
  destruct (mark_unmark_round_trip h "2024-02-29" Hc) as [Hm _].
  destruct (mark_unmark_round_trip h "2024-03-01" Hc) as [_ Hu].
  split; [apply Hm|apply Hu]; by vm_compute.
Defined.

Lemma mark_complete_present (g : Habit) (d : string) :
  d ∈ completion_set g → (mark_complete g d).2 = g.
Proof. intros Hd. unfold mark_complete. by rewrite bool_decide_eq_true_2. Qed.

Lemma mark_complete_absent (g : Habit) (d : string) :
  d ∉ completion_set g →
  (mark_complete g d).2
  = mkHabit (id g) (name g) (created_at g) (Str.sorted ({[d]} ∪ completion_set g)).
Proof. intros Hd. unfold mark_complete. by rewrite bool_decide_eq_false_2. Qed.

(** X3. The order in which two dates are marked does not matter: both
    orders leave the same habit. *)
Theorem mark_complete_commutes (h : Habit) (d1 d2 : string) :
  (mark_complete (mark_complete h d1).2 d2).2
  = (mark_complete (mark_complete h d2).2 d1).2.
Proof.
  destruct (decide (d1 = d2)) as [->|Hne]; [done|].
  destruct (decide (d1 ∈ completion_set h)) as [H1|H1],
           (decide (d2 ∈ completion_set h)) as [H2|H2].
  - by rewrite (mark_complete_present h d1 H1), (mark_complete_present h d2 H2),
      (mark_complete_present h d1 H1).
  - rewrite (mark_complete_present h d1 H1).
    rewrite (mark_complete_present (mark_complete h d2).2 d1); [done|].
    rewrite completion_set_mark. by apply elem_of_union_r.
  - rewrite (mark_complete_present h d2 H2).
    rewrite (mark_complete_present (mark_complete h d1).2 d2); [done|].
    rewrite completion_set_mark. by apply elem_of_union_r.
  - assert (H21 : d2 ∉ completion_set (mark_complete h d1).2).
    { rewrite completion_set_mark, elem_of_union, elem_of_singleton. intros [?|?]; auto. }
    assert (H12 : d1 ∉ completion_set (mark_complete h d2).2).
    { rewrite completion_set_mark, elem_of_union, elem_of_singleton. intros [?|?]; auto. }
    rewrite (mark_complete_absent _ d2 H21), (mark_complete_absent _ d1 H12).
    rewrite !completion_set_mark.
    rewrite (mark_complete_absent h d1 H1), (mark_complete_absent h d2 H2).
    cbn [id name created_at]. f_equal. f_equal.
    rewrite !assoc_L by apply _. f_equal. apply comm_L, _.
Qed.

(** ** More on the store codec *)

Lemma habits_from_entries_app (repr : value → string) (today : Date.date)
    (l1 l2 : list value) :
  habits_from_entries repr today (l1 ++ l2)
  = h1 ← habits_from_entries repr today l1;
    h2 ← habits_from_entries repr today l2;
    Ok (h1 ++ h2).
Proof.
  induction l1 as [|v l1 IH]; cbn [app habits_from_entries].
  - cbn [mbind result_bind]. by destruct (habits_from_entries repr today l2).
  - destruct v; try done.
    destruct (habit_of_record repr today d) as [habit|e]; [|done].
    cbn [mbind result_bind]. rewrite IH.
    destruct (habits_from_entries repr today l1) as [h1|e]; [|done].
    cbn [mbind result_bind].
    by destruct (habits_from_entries repr today l2).
Qed.


(** X4. [habits_from_store] returns only habits that have an id and a
    name: a record that decodes to an empty id or an empty name is not in
    the result. *)
Theorem habits_from_store_only_named (repr : value → string) (today : Date.date)
    (store : gmap string value) (habits : list (HabitOf value)) :
  habits_from_store repr today store = Ok habits →
  ∀ h, h ∈ habits → id h ≠ ""%string ∧ name h ≠ ""%string.
Proof.
  intros Hrun h Hh.
  pose proof (habits_from_store_keeps_named repr today store habits Hrun) as Hall.
  rewrite Forall_forall in Hall. by apply Hall.
Qed.

Lemma habits_from_store_only_named_witness :
  let store : gmap string value :=
    {[ "habits" := VList [VDict {[ "id" := VStr "a1"; "name" := VStr "Run" ]};
                          VDict {[ "id" := VStr "b2" ]};
                          VInt 7] ]} in
  let today := Date.fromordinal 738886 in
  habits_from_store (λ _, "None"%string) today store
  = Ok [mkHabit "a1" "Run" "2024-01-01" []]
  ∧ ∀ h, h ∈ [mkHabit "a1" "Run" "2024-01-01" ([] : list value)] →
         id h ≠ ""%string ∧ name h ≠ ""%string.
Proof.
  intros store today.
  assert (Hrun : habits_from_store (λ _, "None"%string) today store
                 = Ok [mkHabit "a1" "Run" "2024-01-01" []]) by (by vm_compute).
  split; [exact Hrun|].
  exact (habits_from_store_only_named _ today store _ Hrun).
Defined.


(** X6. Decoding goes entry by entry: the habits of a list of entries
    followed by another are the habits of the first followed by the habits
    of the second, in order and with repeated ids or names kept. *)
Theorem habits_from_store_app (repr : value → string) (today : Date.date)
    (store : gmap string value) (l1 l2 : list value) :
  habits_from_store repr today (<["habits" := VList (l1 ++ l2)]> store)
  = h1 ← habits_from_store repr today (<["habits" := VList l1]> store);
    h2 ← habits_from_store repr today (<["habits" := VList l2]> store);
    Ok (h1 ++ h2).
Proof.
  unfold habits_from_store, dict_get. rewrite !lookup_insert_eq.
  cbn [py_iter mbind result_bind]. rewrite habits_from_entries_app.
  destruct (habits_from_entries repr today l1) as [h1|e]; [|done].
  cbn [mbind result_bind].
  destruct (habits_from_entries repr today l2) as [h2|e]; [|done].
  cbn [mbind result_bind]. by rewrite filter_app.
Qed.

Lemma asdict_inj (h1 h2 : Habit) : asdict h1 = asdict h2 → h1 = h2.
Proof.
  intros Heq.
  apply (f_equal (λ v, match v with VDict d => d | _ => ∅ end)) in Heq.
  unfold asdict in Heq. cbv beta iota in Heq.
  destruct (asdict_fields_lookup h1) as (I1 & N1 & C1 & L1).
  destruct (asdict_fields_lookup h2) as (I2 & N2 & C2 & L2).
  rewrite Heq in I1, N1, C1, L1.
  destruct h1 as [i1 n1 c1 l1], h2 as [i2 n2 c2 l2]. cbn in *.
  assert (i1 = i2) by congruence. assert (n1 = n2) by congruence.
  assert (c1 = c2) by congruence.
  assert (Hl : VStr <$> l1 = VStr <$> l2) by congruence.
  assert (l1 = l2) as ->; [|congruence].
  clear -Hl. revert l2 Hl. induction l1 as [|x l1 IH]; intros [|y l2]; try done.
  rewrite !fmap_cons. intros [= -> Hl]. f_equal. by apply IH.
Qed.

(** X7. [store_from_habits] loses nothing: two lists of habits with the
    same document are the same list. *)
Theorem store_from_habits_inj (habits1 habits2 : list Habit) :
  store_from_habits habits1 = store_from_habits habits2 → habits1 = habits2.
Proof.
  intros Heq.
  assert (Hlist : asdict <$> habits1 = asdict <$> habits2).
  { pose proof (proj2 (store_from_habits_lookup habits1)) as H1.
    pose proof (proj2 (store_from_habits_lookup habits2)) as H2.
    rewrite Heq in H1. rewrite H1 in H2. by injection H2. }
  clear Heq. revert habits2 Hlist.
  induction habits1 as [|h1 habits1 IH]; intros [|h2 habits2]; try done.
  rewrite !fmap_cons. intros Hlist.
  assert (asdict h1 = asdict h2) as Hh by congruence.
  assert (asdict <$> habits1 = asdict <$> habits2) as Hrest by congruence.
  apply asdict_inj in Hh as ->. f_equal. by apply IH.
Qed.

Lemma store_from_habits_inj_witness :
  let habits := [mkHabit "a1" "Run" "2024-01-01" ["2024-01-02"]] in
  store_from_habits habits = store_from_habits habits ∧ habits = habits.
Proof.
  intros habits. split; [reflexivity|].
  exact (store_from_habits_inj habits habits eq_refl).
Defined.

(** ** More on loading, and saving *)

Lemma checked_store_shape (parsed : value) :
  (∃ l, checked_store parsed !! "habits" = Some (VList l))
  ∧ differs_from_schema_version (checked_store parsed !! "version") = false.
Proof.
  assert (Hdefault : (∃ l, default_store !! "habits" = Some (VList l))
                     ∧ differs_from_schema_version (default_store !! "version") = false).
  { split; [by exists []|done]. }
  destruct parsed as [| | | | |l|d]; try exact Hdefault.
  unfold checked_store. destruct (d !! "habits") as [hv|] eqn:Hh; [|exact Hdefault].
  destruct (differs_from_schema_version (d !! "version")) eqn:Hv.
  - unfold dict_get. rewrite lookup_insert_ne, Hh by done.
    destruct (is_list hv) eqn:Hl; cbn [negb].
    + rewrite lookup_insert_ne, lookup_insert_eq, Hh by done.
      split; [|done]. destruct hv; try done. eauto.
    + rewrite lookup_insert_eq, lookup_insert_ne, lookup_insert_eq by done.
      split; [eauto|done].
  - unfold dict_get. rewrite Hh.
    destruct (is_list hv) eqn:Hl; cbn [negb].
    + rewrite Hh, Hv. split; [|done]. destruct hv; try done. eauto.
    + rewrite lookup_insert_eq, lookup_insert_ne, Hv by done. split; [eauto|done].
Qed.

(** The four ways [load_store] can end. *)
Lemma load_store_cases (json_loads : list N → option value) (w : world) :
  (makedirs_ok w = false ∧ load_store json_loads w = (Raise OSError, w))
  ∨ (makedirs_ok w = true ∧ data_file w = None
     ∧ load_store json_loads w = (Ok default_store, w))
  ∨ (∃ content, makedirs_ok w = true ∧ data_file w = Some content
       ∧ data_readable w = true ∧ utf8_decode (Byte.to_N <$> content) = None
       ∧ load_store json_loads w = (Raise UnicodeDecodeError, w))
  ∨ (∃ content, makedirs_ok w = true ∧ data_file w = Some content
       ∧ (data_readable w = false
          ∨ ∃ text, utf8_decode (Byte.to_N <$> content) = Some text
                    ∧ json_loads text = None)
       ∧ load_store json_loads w
         = (Ok default_store,
            if replace_ok w then
              write_stdout
                "Warning: data file was corrupted. Backed up to data/habits.json.bak"
                (mkWorld (stdin w) (stdout w) (makedirs_ok w) None
                         (data_readable w) (replace_ok w) (Some content))
            else w))
  ∨ (∃ content text v, makedirs_ok w = true ∧ data_file w = Some content
       ∧ data_readable w = true ∧ utf8_decode (Byte.to_N <$> content) = Some text
       ∧ json_loads text = Some v
       ∧ load_store json_loads w = (Ok (checked_store v), w)).
Proof.
  destruct (decide (makedirs_ok w = true)) as [Hm|Hm%not_true_is_false].
  2:{ left. split; [done|]. unfold load_store, mbind, io_bind, ensure_data_dir.
      by rewrite Hm. }
  right. destruct (data_file w) as [content|] eqn:Hd.
  2:{ left. split_and!; try done. by apply load_store_missing. }
  right. destruct (decide (data_readable w = true)) as [Hr|Hr%not_true_is_false].
  2:{ right. left. exists content. split_and!; try done; [by left|].
      apply (load_store_unparsable json_loads w content); auto. }
  destruct (utf8_decode (Byte.to_N <$> content)) as [text|] eqn:Hu.
  2:{ left. exists content. split_and!; try done.
      by apply (load_store_undecodable json_loads w content). }
  right. destruct (json_loads text) as [v|] eqn:Hj.
  2:{ left. exists content. split_and!; try done; [right; eauto|].
      apply (load_store_unparsable json_loads w content); eauto. }
  right. exists content, text, v. split_and!; try done.
  unfold load_store, mbind, io_bind, ensure_data_dir, stat_data_file. rewrite Hm, Hd.
  unfold try_except, json_load_data, mbind, io_bind, mret, io_ret.
  by rewrite Hr, Hu, Hj.
Qed.

(** X8. Whatever [load_store] returns has a list under [habits] and a
    [version] that compares equal to the schema version. *)
Theorem load_store_returns_well_shaped (json_loads : list N → option value)
    (w w' : world) (store : gmap string value) :
  load_store json_loads w = (Ok store, w') →
  (∃ l, store !! "habits" = Some (VList l))
  ∧ differs_from_schema_version (store !! "version") = false.
Proof.
  intros Hrun.
  destruct (load_store_cases json_loads w)
    as [[_ H]|[(_ & _ & H)|[(c & _ & _ & _ & _ & H)|[(c & _ & _ & _ & H)
        |(c & t & v & _ & _ & _ & _ & _ & H)]]]];
    rewrite H in Hrun; try done; injection Hrun as <- _;
    try (split; [by exists []|done]).
  apply checked_store_shape.
Qed.

Lemma load_store_returns_well_shaped_witness :
  let w := mkWorld [] [] true (Some [x7b; x7d]) true true None in
  let loads := λ _ : list N, Some (VDict {[ "habits" := VInt 3; "theme" := VStr "dark" ]}) in
  load_store loads w
  = (Ok {[ "version" := VInt 1; "habits" := VList []; "theme" := VStr "dark" ]}, w)
  ∧ (∃ l, ({[ "version" := VInt 1; "habits" := VList []; "theme" := VStr "dark" ]}
             : gmap string value) !! "habits" = Some (VList l)).
Proof.
  intros w loads.
  assert (Hrun : load_store loads w
    = (Ok {[ "version" := VInt 1; "habits" := VList []; "theme" := VStr "dark" ]}, w))
    by (by vm_compute).
  split; [exact Hrun|].
  exact (proj1 (load_store_returns_well_shaped loads w w _ Hrun)).
Defined.





Lemma load_store_checked (json_loads : list N → option value) (w : world)
    (content : list byte) (text : list N) (v : value) :
  makedirs_ok w = true → data_file w = Some content → data_readable w = true →
  utf8_decode (Byte.to_N <$> content) = Some text → json_loads text = Some v →
  load_store json_loads w = (Ok (checked_store v), w).
Proof.
  intros Hm Hd Hr Hu Hj.
  unfold load_store, mbind, io_bind, ensure_data_dir, stat_data_file. rewrite Hm, Hd.
  unfold try_except, json_load_data, mbind, io_bind, mret, io_ret.
  by rewrite Hr, Hu, Hj.
Qed.

(** X11. A data file that parses is never moved and nothing is printed.
    A document that is not an object, or has no [habits], gives the fresh
    document. Otherwise the document is returned with every other field as
    it is, [habits] kept when it is a list and emptied when it is not, and
    [version] kept when it equals the schema version and set to it when it
    does not. *)
Theorem load_store_parsed (json_loads : list N → option value) (w : world)
    (content : list byte) (text : list N) (v : value) :
  makedirs_ok w = true → data_file w = Some content → data_readable w = true →
  utf8_decode (Byte.to_N <$> content) = Some text → json_loads text = Some v →
  ∃ store,
    load_store json_loads w = (Ok store, w)
    ∧ match v with
      | VDict d =>
          match d !! "habits" with
          | None => store = default_store
          | Some hv =>
              (∀ k : string, k ≠ "version"%string → k ≠ "habits"%string →
                             store !! k = d !! k)
              ∧ store !! "habits" = Some (if is_list hv then hv else VList [])
              ∧ store !! "version"
                = (if differs_from_schema_version (d !! "version")
                   then Some (VInt SCHEMA_VERSION) else d !! "version")
              ∧ (differs_from_schema_version (d !! "version") = false →
                 is_list hv = true → store = d)
          end
      | _ => store = default_store
      end.
Proof.
  intros Hm Hd Hr Hu Hj. exists (checked_store v). split.
  { by apply (load_store_checked json_loads w content text v). }
  destruct v as [| | | | |l|d]; try done.
  unfold checked_store. destruct (d !! "habits") as [hv|] eqn:Hh; [|done].
  unfold dict_get.
  destruct (differs_from_schema_version (d !! "version")) eqn:Hv;
    rewrite ?lookup_insert_ne, Hh by done;
    destruct (is_list hv) eqn:Hl; cbn [negb]; split_and!; try done.
  - intros k Hk1 Hk2. by rewrite lookup_insert_ne.
  - by rewrite lookup_insert_ne.
  - by rewrite lookup_insert_eq.
  - intros k Hk1 Hk2. by rewrite !lookup_insert_ne.
  - by rewrite lookup_insert_eq.
  - by rewrite lookup_insert_ne, lookup_insert_eq.
  - intros k Hk1 Hk2. by rewrite lookup_insert_ne.
  - by rewrite lookup_insert_eq.
  - by rewrite lookup_insert_ne.
Qed.

Lemma load_store_parsed_witness :
  let d : gmap string value :=
    {[ "version" := VInt 0; "habits" := VList [VInt 5]; "theme" := VStr "dark" ]} in
  let w := mkWorld [] [] true (Some [x7b; x7d]) true true None in
  ∃ store, load_store (λ _, Some (VDict d)) w = (Ok store, w)
           ∧ store !! "theme" = Some (VStr "dark")
           ∧ store !! "habits" = Some (VList [VInt 5])
           ∧ store !! "version" = Some (VInt 1).
Proof.
  intros d w.
  destruct (load_store_parsed (λ _, Some (VDict d)) w [x7b; x7d] [123; 125]%N (VDict d)
              eq_refl eq_refl eq_refl eq_refl eq_refl) as (store & Hrun & Hshape).
  exists store. split; [exact Hrun|].
  change (d !! "habits") with (Some (VList [VInt 5])) in Hshape.
  destruct Hshape as (Hother & Hh & Hv & _).
  split; [|split].
  - rewrite Hother by done. reflexivity.
  - exact Hh.
  - exact Hv.
Defined.

(** X12. What the program saves it loads back: after [save_store] has
    written the document of a list of habits, [load_store] returns that
    document and changes nothing, provided the file can be read and
    [json.loads] reads back what [json.dump] wrote. Saving leaves the
    backup and the terminal alone. *)
Theorem save_store_load_store (json_dumps : value → list byte)
    (json_loads : list N → option value) (habits : list Habit) (w : world) :
  makedirs_ok w = true → data_readable w = true →
  (∃ text, utf8_decode (Byte.to_N <$> json_dumps (VDict (store_from_habits habits)))
           = Some text
           ∧ json_loads text = Some (VDict (store_from_habits habits))) →
  ∃ w1, save_store json_dumps NoFault (store_from_habits habits) w = (Ok tt, w1)
        ∧ data_file w1 = Some (json_dumps (VDict (store_from_habits habits)))
        ∧ backup_file w1 = backup_file w
        ∧ stdout w1 = stdout w ∧ stdin w1 = stdin w
        ∧ load_store json_loads w1 = (Ok (store_from_habits habits), w1).
Proof.
  intros Hm Hr (text & Hu & Hj).
  unfold save_store, mbind, io_bind, ensure_data_dir, write_data_file. rewrite Hm.
  eexists. split; [done|]. split_and!; try done.
  assert (Hkeep : checked_store (VDict (store_from_habits habits))
                  = store_from_habits habits).
  { unfold checked_store. destruct (store_from_habits_lookup habits) as [Hv Hh].
    rewrite Hh, Hv.
    change (differs_from_schema_version (Some (VInt SCHEMA_VERSION))) with false.
    cbv iota. unfold dict_get. by rewrite Hh. }
  erewrite load_store_checked; [|done..]. by rewrite Hkeep.
Qed.

Lemma save_store_load_store_witness :
  let habits := [mkHabit "a1" "Run" "2024-01-01" ["2024-01-02"]] in
  let dumps := λ _ : value, [x7b; x7d] in
  let loads := λ _ : list N, Some (VDict (store_from_habits habits)) in
  let w := mkWorld [] [] true None true true None in
  let w1 := mkWorld [] [] true (Some [x7b; x7d]) true true None in
  save_store dumps NoFault (store_from_habits habits) w = (Ok tt, w1)
  ∧ load_store loads w1 = (Ok (store_from_habits habits), w1).
Proof.
  intros habits dumps loads w w1.
  destruct (save_store_load_store dumps loads habits w eq_refl eq_refl)
    as (w' & Hsave & Hfile & _ & _ & _ & Hload).
  { exists [123; 125]%N. split; reflexivity. }
  assert (w' = w1) as -> by (pose proof (f_equal snd Hsave) as Hw; exact (eq_sym Hw)).
  split; [exact Hsave|exact Hload].
Defined.

(** X25. After [load_store], [habits_from_store] iterates a list: it can
    only fail inside a record, and it succeeds whenever every record's
    [completions] is absent or is a list, a string or an object. *)
Theorem load_store_then_habits_from_store (json_loads : list N → option value)
    (repr : value → string) (today : Date.date) (w w' : world)
    (store : gmap string value) :
  load_store json_loads w = (Ok store, w') →
  ∃ entries,
    store !! "habits" = Some (VList entries)
    ∧ (Forall (λ v, ∀ d, v = VDict d →
                    ∃ l, py_iter (dict_get d "completions" (VList [])) = Ok l) entries →
       ∃ habits, habits_from_store repr today store = Ok habits
                 ∧ ∀ h, h ∈ habits → id h ≠ ""%string ∧ name h ≠ ""%string).
Proof.
  intros Hrun.
  assert (Hshape : ∃ l, store !! "habits" = Some (VList l)).
  { destruct (load_store_cases json_loads w)
      as [[_ H]|[(_ & _ & H)|[(c & _ & _ & _ & _ & H)|[(c & _ & _ & _ & H)
          |(c & t & v & _ & _ & _ & _ & _ & H)]]]];
      rewrite H in Hrun; try done; injection Hrun as <- _;
      try (by exists []).
    apply checked_store_shape. }
  destruct Hshape as [entries Hh]. exists entries. split; [done|]. intros Hall.
  destruct (habits_from_entries_total repr today entries Hall) as [hs Hhs].
  assert (Hdec : habits_from_store repr today store
                 = Ok (filter (λ h, Str.truthy (id h) && Str.truthy (name h)) hs)).
  { unfold habits_from_store, dict_get. rewrite Hh. cbn [py_iter mbind result_bind].
    by rewrite Hhs. }
  eexists. split; [exact Hdec|]. intros h Hin.
  pose proof (habits_from_store_keeps_named repr today store _ Hdec) as Hnamed.
  rewrite Forall_forall in Hnamed. by apply Hnamed.
Qed.

Lemma load_store_then_habits_from_store_witness :
  let w := mkWorld [] [] true (Some [x7b; x7d]) true true None in
  let loads := λ _ : list N,
    Some (VDict {[ "version" := VInt 1;
                   "habits" := VList [VDict {[ "id" := VStr "a1"; "name" := VStr "Run" ]};
                                      VStr "junk"] ]}) in
  ∃ store habits,
    load_store loads w = (Ok store, w)
    ∧ habits_from_store (λ _, "None"%string) (Date.fromordinal 738886) store = Ok habits.
Proof.
  intros w loads.
  assert (Hrun : load_store loads w
    = (Ok {[ "version" := VInt 1;
             "habits" := VList [VDict {[ "id" := VStr "a1"; "name" := VStr "Run" ]};
                                VStr "junk"] ]}, w)) by (by vm_compute).
  destruct (load_store_then_habits_from_store loads (λ _, "None"%string)
              (Date.fromordinal 738886) w w _ Hrun) as (entries & Hh & Hdec).
  assert (Hent : entries = [VDict {[ "id" := VStr "a1"; "name" := VStr "Run" ]};
                            VStr "junk"]).
  { assert (Hlk : ({[ "version" := VInt 1;
             "habits" := VList [VDict {[ "id" := VStr "a1"; "name" := VStr "Run" ]};
                                VStr "junk"] ]} : gmap string value) !! "habits"
             = Some (VList [VDict {[ "id" := VStr "a1"; "name" := VStr "Run" ]};
                            VStr "junk"])) by (by vm_compute).
    rewrite Hlk in Hh. by injection Hh. }
  destruct Hdec as (habits & Hhabits & _).
  { subst entries. repeat constructor.
    - intros d [= <-]. exists []. by vm_compute.
    - intros d Hd. discriminate Hd. }
  eexists _, habits. split; [exact Hrun|exact Hhabits].
Defined.

(** ** More on streaks and weeks *)

(** X13. The loop of [current_streak] ends: for a reference date [d] it
    takes at most as many turns as the ordinal of [d], and with any larger
    allowance of turns the result is the same. *)
Theorem current_streak_terminates (today : Date.date) (h : Habit)
    (ref : option Date.date) :
  Date.valid (default today ref) →
  ∃ r, current_streak today h ref = Some r
       ∧ ∀ fuel, (Z.to_nat (Date.toordinal (default today ref)) < fuel)%nat →
                 current_streak_fuel today fuel h ref = Some r.
Proof.
  intros Hv.
  destruct (current_streak today h ref) as [r|] eqn:Hrun.
  2:{ by destruct (proj1 (current_streak_fuel_enough today h ref 0 Hv)). }
  exists r. split; [done|]. intros fuel Hfuel.
  destruct (current_streak_fuel_enough today h ref
              (fuel - S (Z.to_nat (Date.toordinal (default today ref)))) Hv) as [_ Heq].
  rewrite Hrun in Heq. rewrite <- Heq. f_equal. lia.
Qed.

Lemma current_streak_terminates_witness :
  let today := Date.fromordinal 738946 in
  let h := mkHabit "a1" "Run" "2024-01-01" ["2024-02-29"; "2024-03-01"] in
  Date.valid today
  ∧ ∃ r, current_streak today h None = Some r
         ∧ ∀ fuel, (Z.to_nat 738946 < fuel)%nat →
                   current_streak_fuel today fuel h None = Some r.
Proof.
  intros today h.
  assert (Hv : Date.valid today) by (unfold Date.valid, Date.MAXORDINAL; simpl; lia).
  split; [exact Hv|].
  destruct (current_streak_terminates today h None Hv) as (r & Hrun & Hfuel).
  exists r. split; [exact Hrun|]. intros fuel Hlt. apply Hfuel. exact Hlt.
Defined.

(** The days a streak of [n] runs over are [n] different completed
    dates. *)
Lemma streak_days_in_set (h : Habit) (start : Date.date) (n : Z) :
  Date.valid start → 0 ≤ n ≤ Date.toordinal start →
  (∀ i, 0 ≤ i < n → completed_on h (day_before start i)) →
  n ≤ Z.of_nat (size (completion_set h)).
Proof.
  intros Hv Hn Hall.
  set (days := (λ i : nat, Date.isoformat (day_before start (Z.of_nat i)))
               <$> seq 0 (Z.to_nat n)).
  assert (Hnd : NoDup days).
  { apply NoDup_fmap_2_strong; [|apply NoDup_seq].
    intros a b Ha%elem_of_seq Hb%elem_of_seq Heq.
    destruct (decide (Z.of_nat a = Z.of_nat b)) as [|Hne]; [lia|].
    by destruct (isoformat_day_before_ne start (Z.of_nat a) (Z.of_nat b) Hv
                   ltac:(lia) ltac:(lia) Hne). }
  assert (Hsub : (list_to_set days : gset string) ⊆ completion_set h).
  { intros d Hd. apply elem_of_list_to_set, list_elem_of_fmap in Hd
      as (a & -> & Ha%elem_of_seq). apply Hall. lia. }
  apply subseteq_size in Hsub. rewrite size_list_to_set in Hsub by done.
  unfold days in Hsub. rewrite length_fmap, length_seq in Hsub. lia.
Qed.

(** X14. A streak is never longer than the number of completed dates. *)
Theorem current_streak_le_size (today : Date.date) (h : Habit) (ref : Date.date) (n : Z) :
  Date.valid ref →
  current_streak today h (Some ref) = Some (Ok n) →
  0 ≤ n ≤ Z.of_nat (size (completion_set h)).
Proof.
  intros Hv Hrun.
  destruct (current_streak_cases today h ref Hv)
    as [[_ H]|[Hne [(m & Hm & Hall & _ & H)|[_ H]]]]; rewrite H in Hrun; try done.
  - injection Hrun as <-. lia.
  - injection Hrun as <-. split; [lia|].
    apply (streak_days_in_set h (streak_start h ref)); [|lia|done].
    unfold Date.valid in *. unfold streak_start, day_before in *.
    destruct (is_completed_on h (Date.isoformat ref)); cbn in *; lia.
Qed.

Lemma current_streak_le_size_witness :
  let today := Date.fromordinal 738946 in
  let h := mkHabit "a1" "Run" "2024-01-01" ["2024-02-29"; "2024-03-01"; "2024-02-20"] in
  current_streak today h (Some today) = Some (Ok 2)
  ∧ 0 ≤ 2 ≤ Z.of_nat (size (completion_set h)).
Proof.
  intros today h.
  assert (Hv : Date.valid today) by (unfold Date.valid, Date.MAXORDINAL; simpl; lia).
  assert (Hrun : current_streak today h (Some today) = Some (Ok 2)) by (by vm_compute).
  split; [exact Hrun|].
  exact (current_streak_le_size today h today 2 Hv Hrun).
Defined.

Lemma streak_start_completed (h : Habit) (ref : Date.date) :
  completed_on h ref → streak_start h ref = ref.
Proof.
  intros Hc. unfold streak_start. by rewrite (proj2 (is_completed_on_true h _)).
Qed.

Lemma streak_start_not_completed (h : Habit) (ref : Date.date) :
  ¬ completed_on h ref → streak_start h ref = day_before ref 1.
Proof.
  intros Hc. unfold streak_start. by rewrite (proj2 (is_completed_on_false h _)).
Qed.

(** A run of [n] completed days from the starting day, closed by a day
    that is not completed and is on the calendar, is what [current_streak]
    returns. *)
Lemma current_streak_is (today : Date.date) (h : Habit) (ref : Date.date) (n : Z) :
  Date.valid ref →
  0 ≤ n < Date.toordinal (streak_start h ref) →
  (∀ i, 0 ≤ i < n → completed_on h (day_before (streak_start h ref) i)) →
  ¬ completed_on h (day_before (streak_start h ref) n) →
  current_streak today h (Some ref) = Some (Ok n).
Proof.
  intros Hv Hn Hall Hstop.
  destruct (current_streak_counts today h ref Hv) as (m & Hrun & Hm & Hall' & Hstop' & _).
  { right. exists (Date.toordinal (streak_start h ref) - n). split; [lia|done]. }
  rewrite Hrun. do 2 f_equal.
  apply (streak_count_unique
           (λ i, completed_on h (day_before (streak_start h ref) i))); try done. lia.
Qed.

(** X15. Marking the reference date, when it was not completed, makes the
    streak one longer. *)
Theorem mark_today_extends_streak (today : Date.date) (h : Habit) (ref : Date.date)
    (n : Z) :
  Date.valid ref → 2 ≤ Date.toordinal ref →
  is_completed_on h (Date.isoformat ref) = false →
  current_streak today h (Some ref) = Some (Ok n) →
  current_streak today (mark_complete h (Date.isoformat ref)).2 (Some ref)
  = Some (Ok (n + 1)).
Proof.
  intros Hv Hord Hnot%is_completed_on_false Hrun.
  set (h' := (mark_complete h (Date.isoformat ref)).2).
  assert (Hset : completion_set h' = {[Date.isoformat ref]} ∪ completion_set h)
    by apply completion_set_mark.
  assert (Hin' : completed_on h' ref) by (unfold completed_on; rewrite Hset; set_solver).
  assert (Hstart' : streak_start h' ref = ref) by by apply streak_start_completed.
  assert (Hstart : streak_start h ref = day_before ref 1)
    by by apply streak_start_not_completed.
  assert (Hfacts : 0 ≤ n < Date.toordinal ref - 1 ∨ (n = 0 ∧ completion_set h = ∅)).
  { destruct (current_streak_cases today h ref Hv)
      as [[He H]|[_ [(m & Hm & _ & _ & H)|[_ H]]]]; rewrite H in Hrun; try done;
      injection Hrun as <-; [by right|left].
    rewrite Hstart in Hm. cbn in Hm. lia. }
  assert (Hdays : (∀ i, 0 ≤ i < n → completed_on h (day_before ref (1 + i)))
                  ∧ ¬ completed_on h (day_before ref (1 + n))).
  { destruct (current_streak_cases today h ref Hv)
      as [[He H]|[_ [(m & Hm & Hall & Hstop & H)|[_ H]]]]; rewrite H in Hrun; try done;
      injection Hrun as <-.
    - split; [intros; lia|]. unfold completed_on. rewrite He. set_solver.
    - rewrite Hstart in Hall, Hstop. split.
      + intros i Hi. rewrite <- day_before_day_before. by apply Hall.
      + by rewrite <- day_before_day_before. }
  destruct Hdays as [Hall Hstop].
  apply current_streak_is; rewrite ?Hstart'; try done.
  - lia.
  - intros i Hi. destruct (decide (i = 0)) as [->|Hne].
    + by rewrite day_before_0.
    + unfold completed_on. rewrite Hset. apply elem_of_union_r.
      replace i with (1 + (i - 1)) by lia. apply Hall. lia.
  - unfold completed_on. rewrite Hset, elem_of_union, elem_of_singleton.
    intros [Heq|Hin]; [|by replace (n + 1) with (1 + n) in Hin by lia].
    rewrite <- (day_before_0 ref) in Heq at 2.
    by destruct (isoformat_day_before_ne ref (n + 1) 0 Hv ltac:(lia) ltac:(lia) ltac:(lia)).
Qed.

Lemma mark_today_extends_streak_witness :
  let today := Date.fromordinal 738946 in
  let h := mkHabit "a1" "Run" "2024-01-01" ["2024-02-28"; "2024-02-29"] in
  current_streak today h (Some today) = Some (Ok 2)
  ∧ current_streak today (mark_complete h (Date.isoformat today)).2 (Some today)
    = Some (Ok 3).
Proof.
  intros today h.
  assert (Hv : Date.valid today) by (unfold Date.valid, Date.MAXORDINAL; simpl; lia).
  assert (Hrun : current_streak today h (Some today) = Some (Ok 2)) by (by vm_compute).
  split; [exact Hrun|].
  apply (mark_today_extends_streak today h today 2 Hv); [simpl; lia|by vm_compute|exact Hrun].
Defined.

(** X16. Unmarking the reference date, when it was completed, makes the
    streak one shorter. *)
Theorem unmark_today_shortens_streak (today : Date.date) (h : Habit) (ref : Date.date)
    (n : Z) :
  Date.valid ref →
  is_completed_on h (Date.isoformat ref) = true →
  current_streak today h (Some ref) = Some (Ok n) →
  current_streak today (unmark_complete h (Date.isoformat ref)).2 (Some ref)
  = Some (Ok (n - 1)).
Proof.
  intros Hv Hin%is_completed_on_true Hrun.
  set (h' := (unmark_complete h (Date.isoformat ref)).2).
  assert (Hset : completion_set h' = completion_set h ∖ {[Date.isoformat ref]})
    by apply completion_set_unmark.
  assert (Hnot' : ¬ completed_on h' ref) by (unfold completed_on; rewrite Hset; set_solver).
  assert (Hstart' : streak_start h' ref = day_before ref 1)
    by by apply streak_start_not_completed.
  assert (Hstart : streak_start h ref = ref) by by apply streak_start_completed.
  destruct (current_streak_cases today h ref Hv)
    as [[He H]|[_ [(m & Hm & Hall & Hstop & H)|[_ H]]]]; rewrite H in Hrun; try done;
    injection Hrun as <-.
  { unfold completed_on in Hin. rewrite He in Hin. set_solver. }
  rewrite Hstart in Hm, Hall, Hstop.
  assert (1 ≤ m).
  { destruct (decide (m = 0)) as [->|]; [|lia]. by rewrite day_before_0 in Hstop. }
  destruct (decide (completion_set h' = ∅)) as [Hempty|Hne].
  - (* only the reference date was completed *)
    assert (m = 1) as ->.
    { destruct (decide (m = 1)) as [|Hm1]; [done|]. exfalso.
      specialize (Hall 1 ltac:(lia)). unfold completed_on in Hall.
      assert (Date.isoformat (day_before ref 1) ∈ completion_set h') as Hin1.
      { rewrite Hset, elem_of_difference, elem_of_singleton. split; [done|].
        intros Heq. rewrite <- (day_before_0 ref) in Heq at 2.
        by destruct (isoformat_day_before_ne ref 1 0 Hv ltac:(lia) ltac:(lia) ltac:(lia)). }
      rewrite Hempty in Hin1. set_solver. }
    rewrite current_streak_Some. by rewrite bool_decide_eq_true_2.
  - apply current_streak_is; rewrite ?Hstart'; try done.
    + cbn. lia.
    + intros i Hi. rewrite day_before_day_before.
      unfold completed_on. rewrite Hset, elem_of_difference, elem_of_singleton.
      split; [apply Hall; lia|].
      intros Heq. rewrite <- (day_before_0 ref) in Heq at 2.
      by destruct (isoformat_day_before_ne ref (1 + i) 0 Hv
                     ltac:(lia) ltac:(lia) ltac:(lia)).
    + rewrite day_before_day_before. replace (1 + (m - 1)) with m by lia.
      unfold completed_on. rewrite Hset. unfold completed_on in Hstop. set_solver.
Qed.

Lemma unmark_today_shortens_streak_witness :
  let today := Date.fromordinal 738946 in
  let h := mkHabit "a1" "Run" "2024-01-01" ["2024-02-28"; "2024-02-29"; "2024-03-01"] in
  current_streak today h (Some today) = Some (Ok 3)
  ∧ current_streak today (unmark_complete h (Date.isoformat today)).2 (Some today)
    = Some (Ok 2).
Proof.
  intros today h.
  assert (Hv : Date.valid today) by (unfold Date.valid, Date.MAXORDINAL; simpl; lia).
  assert (Hrun : current_streak today h (Some today) = Some (Ok 3)) by (by vm_compute).
  split; [exact Hrun|].
  apply (unmark_today_shortens_streak today h today 3 Hv); [by vm_compute|exact Hrun].
Defined.

(** X17. For a reference date before 0001-01-07 the week reaches before
    [date.min], and [weekly_summary] raises OverflowError whatever the
    habit. *)
Theorem weekly_summary_raises_in_first_week (today : Date.date) (h : Habit)
    (ref : Date.date) :
  Date.valid ref → Date.toordinal ref < 7 →
  weekly_summary today h (Some ref) = Raise OverflowError.
Proof. apply weekly_summary_first_week. Qed.

Lemma weekly_summary_raises_in_first_week_witness :
  let ref := Date.fromordinal 6 in
  Date.valid ref
  ∧ weekly_summary ref (mkHabit "a1" "Run" "0001-01-01" []) (Some ref)
    = Raise OverflowError.
Proof.
  intros ref.
  assert (Hv : Date.valid ref) by (unfold Date.valid, Date.MAXORDINAL; simpl; lia).
  split; [exact Hv|].
  apply (weekly_summary_raises_in_first_week ref _ ref Hv). simpl. lia.
Defined.

Lemma isoformat_ref_in_week (ref : Date.date) :
  Date.isoformat ref ∈ week_days ref.
Proof.
  unfold week_days, range. cbn [seq fmap list_fmap].
  rewrite day_before_0. apply list_elem_of_here.
Qed.

(** X18. Marking the reference date, when it was not completed, makes the
    weekly count one higher. *)
Theorem mark_today_raises_weekly_summary (today : Date.date) (h : Habit)
    (ref : Date.date) :
  Date.valid ref → 7 ≤ Date.toordinal ref →
  is_completed_on h (Date.isoformat ref) = false →
  ∃ n, weekly_summary today h (Some ref) = Ok n
       ∧ weekly_summary today (mark_complete h (Date.isoformat ref)).2 (Some ref)
         = Ok (n + 1).
Proof.
  intros Hv Hord Hnot%is_completed_on_false.
  rewrite !weekly_summary_count by done. eexists. split; [done|]. f_equal.
  unfold completions_in_week. rewrite completion_set_mark.
  assert (Heq : filter (λ d, d ∈ week_days ref) ({[Date.isoformat ref]} ∪ completion_set h)
                = {[Date.isoformat ref]} ∪ filter (λ d, d ∈ week_days ref) (completion_set h)).
  { apply set_eq. intros d.
    rewrite elem_of_union, !elem_of_filter, elem_of_union, elem_of_singleton.
    split; [tauto|]. intros [->|[? ?]]; [|tauto].
    split; [apply isoformat_ref_in_week|by left]. }
  rewrite Heq, size_union, size_singleton; [lia|].
  intros d Hd%elem_of_singleton [_ Hd']%elem_of_filter. by subst d.
Qed.

Lemma mark_today_raises_weekly_summary_witness :
  let today := Date.fromordinal 738946 in
  let h := mkHabit "a1" "Run" "2024-01-01" ["2024-02-20"; "2024-02-29"] in
  weekly_summary today h (Some today) = Ok 1
  ∧ weekly_summary today (mark_complete h (Date.isoformat today)).2 (Some today) = Ok 2.
Proof.
  intros today h.
  assert (Hv : Date.valid today) by (unfold Date.valid, Date.MAXORDINAL; simpl; lia).
  destruct (mark_today_raises_weekly_summary today h today Hv) as (n & Hn & Hn1);
    [simpl; lia|by vm_compute|].
  assert (Hrun : weekly_summary today h (Some today) = Ok 1) by (by vm_compute).
  split; [exact Hrun|].
  rewrite Hrun in Hn. injection Hn as <-. exact Hn1.
Defined.

Lemma filter_all {A} (P : A → Prop) `{∀ x, Decision (P x)} (l : list A) :
  Forall P l → filter P l = l.
Proof.
  induction 1 as [|x l Hx _ IH]; [done|].
  rewrite filter_cons, decide_True by done. by rewrite IH.
Qed.

(** X19. A streak of 7 days or more that reaches the reference date fills
    the week: [weekly_summary] is then 7. *)
Theorem full_streak_fills_week (today : Date.date) (h : Habit) (ref : Date.date) (n : Z) :
  Date.valid ref → 7 ≤ Date.toordinal ref →
  is_completed_on h (Date.isoformat ref) = true →
  current_streak today h (Some ref) = Some (Ok n) → 7 ≤ n →
  weekly_summary today h (Some ref) = Ok 7.
Proof.
  intros Hv Hord Hin%is_completed_on_true Hrun Hn.
  rewrite weekly_summary_Some by done.
  assert (Hall : ∀ i, 0 ≤ i < 7 → completed_on h (day_before ref i)).
  { destruct (current_streak_cases today h ref Hv)
      as [[_ H]|[_ [(m & Hm & Hall & _ & H)|[_ H]]]]; rewrite H in Hrun; try done;
      injection Hrun as <-; [lia|].
    rewrite (streak_start_completed h ref Hin) in Hall. intros i Hi. apply Hall. lia. }
  assert (Hkeep : filter (λ d, d ∈ completion_set h) (week_days ref) = week_days ref).
  { apply filter_all. unfold week_days, range.
    apply Forall_fmap, Forall_fmap, Forall_forall. intros a Ha%elem_of_seq.
    apply Hall. lia. }
  by rewrite Hkeep.
Qed.

Lemma full_streak_fills_week_witness :
  let today := Date.fromordinal 738946 in
  let h := mkHabit "a1" "Run" "2024-01-01"
             ["2024-02-23"; "2024-02-24"; "2024-02-25"; "2024-02-26"; "2024-02-27";
              "2024-02-28"; "2024-02-29"; "2024-03-01"] in
  current_streak today h (Some today) = Some (Ok 8)
  ∧ weekly_summary today h (Some today) = Ok 7.
Proof.
  intros today h.
  assert (Hv : Date.valid today) by (unfold Date.valid, Date.MAXORDINAL; simpl; lia).
  assert (Hrun : current_streak today h (Some today) = Some (Ok 8)) by (by vm_compute).
  split; [exact Hrun|].
  apply (full_streak_fills_week today h today 8 Hv); [simpl; lia|by vm_compute|exact Hrun|lia].
Defined.

(** ** More on the prompts and the actions *)

Lemma find_habit_app (habits : list Habit) (new : Habit) (k : string) :
  find_habit (habits ++ [new]) k
  = match find_habit habits k with
    | Some h => Some h
    | None => if String.eqb (id new) k then Some new else None
    end.
Proof.
  induction habits as [|h habits IH]; cbn [app find_habit]; [done|].
  by destruct (String.eqb (id h) k).
Qed.

(** X20. [find_habit] returns the first habit of the list with the given
    id, and [None] exactly when no habit has it. *)
Theorem find_habit_first (habits : list Habit) (k : string) :
  match find_habit habits k with
  | Some h =>
      ∃ i : nat, habits !! i = Some h ∧ id h = k
                 ∧ ∀ (j : nat) (g : Habit), (j < i)%nat → habits !! j = Some g → id g ≠ k
  | None => ∀ h, h ∈ habits → id h ≠ k
  end.
Proof.
  induction habits as [|h habits IH]; cbn [find_habit].
  - intros h Hh. by apply elem_of_nil in Hh.
  - destruct (String.eqb_spec (id h) k) as [Heq|Hne].
    + exists 0%nat. split_and!; try done. intros j g Hj. lia.
    + destruct (find_habit habits k) as [g|].
      * destruct IH as (i & Hi & Hid & Hfirst). exists (S i). split_and!; try done.
        intros [|j] g' Hj; cbn; [by intros [= <-]|]. apply Hfirst. lia.
      * intros g [->|Hg]%elem_of_cons; [done|]. by apply IH.
Qed.

(** X21. When the name read from the prompt collides with no habit,
    [action_add] puts one new habit at the end of the list, with the fresh
    id, the name as read, today's date and no completions, and says so.
    Every id that was found before is found as before, and the fresh id
    finds the new habit unless a habit already had that id. *)
Theorem action_add_appends (today : Date.date) (fresh_id : string)
    (habits : list Habit) (w w' : world) (new_name : string) :
  ask_nonempty "Habit name: " 50 (print_header "Add a Habit" w).2 = (Ok (Some new_name), w') →
  (∀ h, h ∈ habits → ¬ same_name new_name h) →
  let new := mkHabit fresh_id new_name (today_iso today) [] in
  action_add today fresh_id habits w
  = (Ok (Some (habits ++ [new])), write_stdout ("Added habit: " +:+ new_name) w')
  ∧ (∀ k, find_habit habits k ≠ None →
          find_habit (habits ++ [new]) k = find_habit habits k)
  ∧ (find_habit habits fresh_id = None →
     find_habit (habits ++ [new]) fresh_id = Some new).
Proof.
  intros Hask Hnew new. split; [by apply action_add_fresh|]. split.
  - intros k Hk. rewrite find_habit_app. by destruct (find_habit habits k).
  - intros Hk. rewrite find_habit_app, Hk. cbn [id new]. by rewrite String.eqb_refl.
Qed.

Lemma action_add_appends_witness :
  let habits := [mkHabit "a1" "Run" "2024-01-01" ["2024-01-02"]] in
  let w := mkWorld [" Read "] [] true None true true None in
  let today := Date.fromordinal 738886 in
  action_add today "0f3a9c1e" habits w
  = (Ok (Some (habits ++ [mkHabit "0f3a9c1e" "Read" "2024-01-01" []])),
     mkWorld [] ["========================================"; "Add a Habit";
                 "========================================"; "Habit name: ";
                 "Added habit: Read"]
             true None true true None).
Proof.
  intros habits w today.
  destruct (action_add_appends today "0f3a9c1e" habits w
             (mkWorld [] ["========================================"; "Add a Habit";
                          "========================================"; "Habit name: "]
                      true None true true None) "Read") as [Hrun _].
  - by vm_compute.
  - intros h Hh. apply list_elem_of_singleton in Hh as ->. by vm_compute.
  - rewrite Hrun. by vm_compute.
Defined.

Lemma ask_nonempty_loop_skips (prompt : string) (max_len : Z) (skipped : list string) :
  Forall (λ raw, ¬ acceptable max_len raw) skipped →
  ∀ (fuel : nat) (w : world) (rest : list string),
    stdin w = skipped ++ rest →
    ∃ w1, ask_nonempty_loop (length skipped + fuel) prompt max_len w
          = ask_nonempty_loop fuel prompt max_len w1
          ∧ stdin w1 = rest
          ∧ (makedirs_ok w1, data_file w1, data_readable w1, replace_ok w1, backup_file w1)
            = (makedirs_ok w, data_file w, data_readable w, replace_ok w, backup_file w).
Proof.
  induction 1 as [|raw skipped Hraw _ IH]; intros fuel w rest Hin.
  - exists w. by split_and!.
  - destruct w as [inp out mk df dr ro bf]. cbn [stdin] in Hin. subst inp.
    cbn [length Nat.add ask_nonempty_loop]. unfold mbind, io_bind, input, print.
    cbn [stdin write_stdout app stdout makedirs_ok data_file data_readable replace_ok
         backup_file].
    unfold acceptable in Hraw.
    destruct (Str.truthy (Str.strip raw)) eqn:Ht; cbn [negb].
    + destruct (Z.ltb_spec max_len (Str.len (Str.strip raw))) as [Hlong|Hshort];
        [|by destruct Hraw].
      match goal with |- context [ask_nonempty_loop _ prompt max_len ?w0] =>
        destruct (IH fuel w0 rest eq_refl) as (w1 & Heq & Hrest & Hframe) end.
      exists w1. by split_and!.
    + match goal with |- context [ask_nonempty_loop _ prompt max_len ?w0] =>
        destruct (IH fuel w0 rest eq_refl) as (w1 & Heq & Hrest & Hframe) end.
      exists w1. by split_and!.
Qed.

(** X22. [ask_nonempty] skips the lines that are blank or too long and
    returns the first other line, stripped, leaving the lines after it
    unread; when no line is left it raises EOFError. It touches nothing but
    the terminal. *)
Theorem ask_nonempty_takes_first (prompt : string) (max_len : Z) (w : world)
    (skipped : list string) :
  Forall (λ raw, ¬ acceptable max_len raw) skipped →
  (∀ raw rest, stdin w = skipped ++ raw :: rest → acceptable max_len raw →
     ∃ w', ask_nonempty prompt max_len w = (Ok (Some (Str.strip raw)), w')
           ∧ stdin w' = rest
           ∧ (makedirs_ok w', data_file w', data_readable w', replace_ok w', backup_file w')
             = (makedirs_ok w, data_file w, data_readable w, replace_ok w, backup_file w))
  ∧ (stdin w = skipped →
     ∃ w', ask_nonempty prompt max_len w = (Raise EOFError, w')
           ∧ stdin w' = []
           ∧ (makedirs_ok w', data_file w', data_readable w', replace_ok w', backup_file w')
             = (makedirs_ok w, data_file w, data_readable w, replace_ok w, backup_file w)).
Proof.
  intros Hskip. split.
  - intros raw rest Hin [Ht Hlen]. unfold ask_nonempty. rewrite Hin, length_app.
    cbn [length]. replace (S (length skipped + S (length rest)))
      with (length skipped + S (S (length rest)))%nat by lia.
    destruct (ask_nonempty_loop_skips prompt max_len skipped Hskip
                (S (S (length rest))) w (raw :: rest) Hin) as (w1 & -> & Hrest & Hframe).
    destruct w1 as [inp out mk df dr ro bf]. cbn [stdin] in Hrest. subst inp.
    cbn [ask_nonempty_loop]. unfold mbind, io_bind, input.
    cbn [stdin write_stdout]. rewrite Ht. cbn [negb].
    destruct (Z.ltb_spec max_len (Str.len (Str.strip raw))) as [?|_]; [lia|].
    eexists. by split_and!.
  - intros Hin. unfold ask_nonempty. rewrite Hin.
    replace (S (length skipped)) with (length skipped + 1)%nat by lia.
    destruct (ask_nonempty_loop_skips prompt max_len skipped Hskip 1 w []) as
      (w1 & -> & Hrest & Hframe); [by rewrite app_nil_r|].
    destruct w1 as [inp out mk df dr ro bf]. cbn [stdin] in Hrest. subst inp.
    cbn [ask_nonempty_loop]. unfold mbind, io_bind, input. cbn [stdin write_stdout].
    eexists. by split_and!.
Qed.

Lemma ask_nonempty_takes_first_witness :
  let w := mkWorld ["   "; " Run "; "Read"] [] true None true true None in
  Forall (λ raw, ¬ acceptable 50 raw) ["   "%string]
  ∧ ∃ w', ask_nonempty "Habit name: " 50 w = (Ok (Some "Run"%string), w')
          ∧ stdin w' = ["Read"%string].
Proof.
  intros w.
  assert (Hskip : Forall (λ raw, ¬ acceptable 50 raw) ["   "%string]).
  { repeat constructor. intros [Ht _]. by vm_compute in Ht. }
  split; [exact Hskip|].
  destruct (ask_nonempty_takes_first "Habit name: " 50 w ["   "%string] Hskip) as [Hfirst _].
  destruct (Hfirst " Run "%string ["Read"%string] eq_refl) as (w' & Hrun & Hrest & _).
  - split; [by vm_compute|]. by vm_compute.
  - exists w'. split; [exact Hrun|exact Hrest].
Defined.

Lemma ask_choice_loop_skips (prompt : string) (choices : list string)
    (skipped : list string) :
  Forall (λ line, ¬ chosen choices line) skipped →
  ∀ (fuel : nat) (w : world) (rest : list string),
    stdin w = skipped ++ rest →
    ∃ w1, ask_choice_loop (length skipped + fuel) prompt choices (Str.lower <$> choices) w
          = ask_choice_loop fuel prompt choices (Str.lower <$> choices) w1
          ∧ stdin w1 = rest
          ∧ (makedirs_ok w1, data_file w1, data_readable w1, replace_ok w1, backup_file w1)
            = (makedirs_ok w, data_file w, data_readable w, replace_ok w, backup_file w).
Proof.
  induction 1 as [|line skipped Hline _ IH]; intros fuel w rest Hin.
  - exists w. by split_and!.
  - destruct w as [inp out mk df dr ro bf]. cbn [stdin] in Hin. subst inp.
    cbn [length Nat.add ask_choice_loop]. unfold mbind, io_bind, input, print.
    cbn [stdin write_stdout app stdout makedirs_ok data_file data_readable replace_ok
         backup_file].
    unfold chosen in Hline. rewrite bool_decide_eq_false_2 by done.
    match goal with |- context [ask_choice_loop _ prompt choices _ ?w0] =>
      destruct (IH fuel w0 rest eq_refl) as (w1 & Heq & Hrest & Hframe) end.
    exists w1. by split_and!.
Qed.

(** X23. [ask_choice] skips the lines that are none of the choices and
    returns the first line that is one, stripped and in lower case, so
    what it returns is always one of the choices in lower case; when no
    line is left it raises EOFError. *)
Theorem ask_choice_takes_first (prompt : string) (choices : list string) (w : world)
    (skipped : list string) :
  Forall (λ line, ¬ chosen choices line) skipped →
  (∀ line rest, stdin w = skipped ++ line :: rest → chosen choices line →
     ∃ w', ask_choice prompt choices w = (Ok (Some (Str.lower (Str.strip line))), w')
           ∧ Str.lower (Str.strip line) ∈ Str.lower <$> choices
           ∧ stdin w' = rest)
  ∧ (stdin w = skipped →
     ∃ w', ask_choice prompt choices w = (Raise EOFError, w') ∧ stdin w' = []).
Proof.
  intros Hskip. split.
  - intros line rest Hin Hc. unfold ask_choice. rewrite Hin, length_app.
    cbn [length]. replace (S (length skipped + S (length rest)))
      with (length skipped + S (S (length rest)))%nat by lia.
    destruct (ask_choice_loop_skips prompt choices skipped Hskip
                (S (S (length rest))) w (line :: rest) Hin) as (w1 & -> & Hrest & _).
    destruct w1 as [inp out mk df dr ro bf]. cbn [stdin] in Hrest. subst inp.
    cbn [ask_choice_loop]. unfold mbind, io_bind, input.
    cbn [stdin write_stdout]. unfold chosen in Hc. rewrite bool_decide_eq_true_2 by done.
    eexists. by split_and!.
  - intros Hin. unfold ask_choice. rewrite Hin.
    replace (S (length skipped)) with (length skipped + 1)%nat by lia.
    destruct (ask_choice_loop_skips prompt choices skipped Hskip 1 w []) as
      (w1 & -> & Hrest & _); [by rewrite app_nil_r|].
    destruct w1 as [inp out mk df dr ro bf]. cbn [stdin] in Hrest. subst inp.
    cbn [ask_choice_loop]. unfold mbind, io_bind, input. cbn [stdin write_stdout].
    eexists. by split_and!.
Qed.

Lemma ask_choice_takes_first_witness :
  let w := mkWorld ["maybe"; " Y "; "n"] [] true None true true None in
  Forall (λ line, ¬ chosen ["y"; "n"]%string line) ["maybe"%string]
  ∧ ∃ w', ask_choice "Delete 'Run'? (y/n): " ["y"; "n"]%string w = (Ok (Some "y"%string), w')
          ∧ stdin w' = ["n"%string].
Proof.
  intros w.
  assert (Hskip : Forall (λ line, ¬ chosen ["y"; "n"]%string line) ["maybe"%string]).
  { repeat constructor. unfold chosen. apply (bool_decide_unpack _). by vm_compute. }
  split; [exact Hskip|].
  destruct (ask_choice_takes_first "Delete 'Run'? (y/n): " ["y"; "n"]%string w
              ["maybe"%string] Hskip) as [Hfirst _].
  destruct (Hfirst " Y "%string ["n"%string] eq_refl) as (w' & Hrun & _ & Hrest).
  - unfold chosen. apply (bool_decide_unpack _). by vm_compute.
  - exists w'. split; [exact Hrun|exact Hrest].
Defined.

Lemma weekly_summary_lines_prints (today : Date.date) (habits : list Habit) (w : world) :
  Date.valid today → 7 ≤ Date.toordinal today →
  weekly_summary_lines today habits w
  = (Ok tt,
     mkWorld (stdin w) (stdout w ++ ((λ h, report_line h today) <$> habits))
             (makedirs_ok w) (data_file w) (data_readable w) (replace_ok w)
             (backup_file w)).
Proof.
  intros Hv Hord. revert w. induction habits as [|h habits IH]; intros w.
  - cbn [weekly_summary_lines fmap list_fmap]. rewrite app_nil_r. by destruct w.
  - cbn [weekly_summary_lines]. rewrite weekly_summary_default.
    rewrite weekly_summary_count by done.
    unfold mbind, io_bind, print. rewrite IH. unfold write_stdout.
    cbn [stdin stdout makedirs_ok data_file data_readable replace_ok backup_file].
    rewrite fmap_cons, <- app_assoc. reflexivity.
Qed.

(** X24. From 0001-01-07 on, [action_weekly_summary] prints its header
    and then one line per habit, in the order of the list, with the name and
    the number of completed dates among the 7 days ending today; for an
    empty list it prints that there are no habits. It reads no input,
    raises nothing and touches no file. *)
Theorem action_weekly_summary_prints (today : Date.date) (habits : list Habit) (w : world) :
  Date.valid today → 7 ≤ Date.toordinal today →
  action_weekly_summary today habits w
  = (Ok tt,
     mkWorld (stdin w)
             (stdout w
              ++ ["========================================";
                  "Weekly Summary (Last 7 Days)";
                  "========================================"]
              ++ match habits with
                 | [] => ["No habits yet."]
                 | _ => (λ h, report_line h today) <$> habits
                 end)
             (makedirs_ok w) (data_file w) (data_readable w) (replace_ok w)
             (backup_file w)).
Proof.
  intros Hv Hord.
  unfold action_weekly_summary, mbind, io_bind, clear_screen, mret, io_ret, print_header,
    mbind, io_bind, print.
  destruct habits as [|h habits].
  - unfold write_stdout.
    cbn [stdin stdout makedirs_ok data_file data_readable replace_ok backup_file].
    by rewrite <- !app_assoc.
  - rewrite weekly_summary_lines_prints by done. unfold write_stdout.
    cbn [stdin stdout makedirs_ok data_file data_readable replace_ok backup_file].
    by rewrite <- !app_assoc.
Qed.

Lemma action_weekly_summary_prints_witness :
  let today := Date.fromordinal 738946 in
  let habits := [mkHabit "a1" "Run" "2024-01-01" ["2024-03-01"; "2024-02-27"; "2024-02-01"];
                 mkHabit "b2" "Read" "2024-01-03" []] in
  let w := mkWorld ["0"] [] true None true true None in
  action_weekly_summary today habits w
  = (Ok tt,
     mkWorld ["0"] ["========================================";
                    "Weekly Summary (Last 7 Days)";
                    "========================================";
                    "- Run: 2/7 days"; "- Read: 0/7 days"]
             true None true true None).
Proof.
  intros today habits w.
  assert (Hv : Date.valid today) by (unfold Date.valid, Date.MAXORDINAL; simpl; lia).
  rewrite (action_weekly_summary_prints today habits w Hv); [|simpl; lia].
  by vm_compute.
Defined.

